(** * Banking transaction processor (src/week-1/task-1/index.js)

    A shallow embedding of [toNumber], [isTransactionType],
    [validateTransaction], [applyTransaction] and
    [processBankingTransaction], together with the fragment of
    JavaScript's value semantics those functions rely on.

    Numbers are IEEE 754 binary64 values (Rocq's primitive [float]), as
    in JavaScript.  Strings are sequences of code units below 256.
    Values range over what literal data can express: [undefined],
    [null], booleans, numbers, strings, arrays without holes and plain
    objects, given by their own data properties (their prototype is
    [Object.prototype]; there are no functions, accessors, symbols or
    BigInt).  An object may well have an own property named [toString]
    or [valueOf]: since no value is callable, the first makes the
    conversion of the object to a string or to a number throw a
    TypeError, which is modelled. *)

From Stdlib Require Import ZArith List String Ascii Bool Lia Floats.
From Stdlib Require Import DecimalString.
Import ListNotations.

Set Warnings "-register-all".

Local Open Scope string_scope.
Local Open Scope Z_scope.

(** ** Exceptions

    A computation either throws an error, of which the program reads the
    message alone, or returns. *)

Definition Throws (A : Type) : Type := (string + A)%type.

Definition ret {A : Type} (a : A) : Throws A := inr a.

Definition throw {A : Type} (message : string) : Throws A := inl message.

Definition bind {A B : Type} (m : Throws A) (k : A -> Throws B) : Throws B :=
  match m with
  | inl message => inl message
  | inr a => k a
  end.

(** [if (condition) throw new Error(message);] *)
Definition throwIf (condition : bool) (message : string) : Throws unit :=
  if condition then throw message else ret tt.

Notation "m ;; k" := (bind m (fun _ => k)) (at level 61, right associativity).
Notation "x <- m ;; k" := (bind m (fun x => k))
  (at level 61, m at next level, right associativity).

(** ** JavaScript values and conversions *)

Module JS.

Inductive value : Type :=
| VUndefined
| VNull
| VBool (b : bool)
| VNum (x : float)
| VStr (s : string)
| VArr (elements : list value)
| VObj (properties : list (string * value)).

(** *** StringToNumber (ECMA-262, StringNumericLiteral) *)

(** StrWhiteSpaceChar among the code units below 256: TAB, LF, VT, FF,
    CR, SP and NBSP. *)
Definition isStrWhiteSpaceChar (c : ascii) : bool :=
  match N_of_ascii c with
  | 9 | 10 | 11 | 12 | 13 | 32 | 160 => true
  | _ => false
  end%N.

Fixpoint trimStart (s : string) : string :=
  match s with
  | String c r => if isStrWhiteSpaceChar c then trimStart r else s
  | EmptyString => EmptyString
  end.

Fixpoint trimEnd (s : string) : string :=
  match s with
  | String c r =>
      match trimEnd r with
      | EmptyString => if isStrWhiteSpaceChar c then EmptyString else String c EmptyString
      | r' => String c r'
      end
  | EmptyString => EmptyString
  end.

Definition trim (s : string) : string := trimEnd (trimStart s).

(** The value of [c] as a digit of the given radix, if it is one. *)
Definition digitValue (radix : Z) (c : ascii) : option Z :=
  let n := Z.of_N (N_of_ascii c) in
  let d := if (48 <=? n) && (n <=? 57) then n - 48
           else if (97 <=? n) && (n <=? 102) then n - 87
           else if (65 <=? n) && (n <=? 70) then n - 55
           else radix in
  if d <? radix then Some d else None.

(** Reads the longest prefix of digits: the number read so far, how
    many digits were read, and what follows them. *)
Fixpoint scanDigits (radix : Z) (s : string) (acc count : Z) : Z * Z * string :=
  match s with
  | String c r =>
      match digitValue radix c with
      | Some d => scanDigits radix r (acc * radix + d) (count + 1)
      | None => (acc, count, s)
      end
  | EmptyString => (acc, count, s)
  end.

(** The mathematical value [m * 10^e] of a decimal literal, rounded to
    the nearest binary64 value, ties to even. *)
Definition roundDecimal (neg : bool) (m e : Z) : float :=
  match m with
  | Zpos p =>
      if 0 <=? e
      then SF2Prim (binary_round prec emax neg (p * Z.to_pos (10 ^ e)) 0)
      else SF2Prim (SFdiv prec emax (S754_finite neg p 0)
                                    (S754_finite false (Z.to_pos (10 ^ (- e))) 0))
  | _ => if neg then neg_zero else zero
  end.

(** ExponentPart_opt followed by the end of the literal. *)
Definition parseExponent (s : string) : option Z :=
  match s with
  | EmptyString => Some 0
  | String c r =>
      if Ascii.eqb c "e" || Ascii.eqb c "E" then
        let '(neg, digits) :=
          match r with
          | String "+" r' => (false, r')
          | String "-" r' => (true, r')
          | _ => (false, r)
          end in
        let '(v, n, rest) := scanDigits 10 digits 0 0 in
        match rest with
        | EmptyString => if 0 <? n then Some (if neg then - v else v) else None
        | _ => None
        end
      else None
  end.

(** StrUnsignedDecimalLiteral other than [Infinity]: mantissa and
    decimal exponent. *)
Definition parseUnsignedDecimal (s : string) : option (Z * Z) :=
  let '(i, ni, r1) := scanDigits 10 s 0 0 in
  match r1 with
  | String "." r2 =>
      let '(f, nf, r3) := scanDigits 10 r2 i 0 in
      if (0 <? ni) || (0 <? nf)
      then option_map (fun e => (f, e - nf)) (parseExponent r3)
      else None
  | _ =>
      if 0 <? ni then option_map (fun e => (i, e)) (parseExponent r1) else None
  end.

Definition StrUnsignedDecimalLiteral (neg : bool) (s : string) : float :=
  if String.eqb s "Infinity" then (if neg then neg_infinity else infinity)
  else match parseUnsignedDecimal s with
       | Some (m, e) => roundDecimal neg m e
       | None => nan
       end.

(** NonDecimalIntegerLiteral: [0x], [0o] and [0b] literals, unsigned. *)
Definition NonDecimalIntegerLiteral (s : string) : option float :=
  match s with
  | String "0" (String p digits) =>
      let radix :=
        if Ascii.eqb p "x" || Ascii.eqb p "X" then Some 16
        else if Ascii.eqb p "o" || Ascii.eqb p "O" then Some 8
        else if Ascii.eqb p "b" || Ascii.eqb p "B" then Some 2
        else None in
      match radix with
      | Some rdx =>
          let '(v, n, rest) := scanDigits rdx digits 0 0 in
          match rest with
          | EmptyString => if 0 <? n then Some (roundDecimal false v 0) else None
          | _ => None
          end
      | None => None
      end
  | _ => None
  end.

Definition StringToNumber (s : string) : float :=
  match trim s with
  | EmptyString => zero
  | String c r as t =>
      match NonDecimalIntegerLiteral t with
      | Some x => x
      | None =>
          if Ascii.eqb c "+" then StrUnsignedDecimalLiteral false r
          else if Ascii.eqb c "-" then StrUnsignedDecimalLiteral true r
          else StrUnsignedDecimalLiteral false t
      end
  end.

(** *** Number::toString (ECMA-262, radix 10) *)

(** Exact comparison of the positive rationals [a * 2^ea * 10^da] and
    [b * 2^eb * 10^db]. *)
Definition scaled (m e2 e10 : Z) : Z * Z :=
  (m * 2 ^ Z.max e2 0 * 10 ^ Z.max e10 0, 2 ^ Z.max (- e2) 0 * 10 ^ Z.max (- e10) 0).

Definition ratCompare (x y : Z * Z) : comparison :=
  (fst x * snd y ?= fst y * snd x).

(** The integer [n] with [10^(n-1) <= m * 2^e < 10^n], for [m > 0]:
    an estimate from the binary length, one below at the least, then
    stepped up. *)
Fixpoint decimalExponentFrom (fuel : nat) (m e n : Z) : Z :=
  match fuel with
  | O => n
  | S fuel' =>
      match ratCompare (scaled 1 0 n) (scaled m e 0) with
      | Gt => n
      | _ => decimalExponentFrom fuel' m e (n + 1)
      end
  end.

Definition decimalExponent (m e : Z) : Z :=
  decimalExponentFrom 8 m e ((Z.log2 m + 1 + e) * 30103 / 100000 - 1).

(** Whether the decimal [s * 10^p] denotes (rounds to) the positive
    finite number [m * 2^e]. *)
Definition denotes (s p : Z) (m : positive) (e : Z) : bool :=
  match Prim2SF (roundDecimal false s p) with
  | S754_finite false m' e' => Pos.eqb m' m && Z.eqb e' e
  | _ => false
  end.

(** The shortest digit string: the least [k], with [s] of [k] digits
    and [n], such that [s * 10^(n-k)] denotes [m * 2^e]; among several
    [s] the one closest to the number, the even one on a tie. *)
Fixpoint shortestDigits (fuel : nat) (m : positive) (e n k : Z) : Z * Z * Z :=
  let lo := fst (scaled (Zpos m) e (k - n)) / snd (scaled (Zpos m) e (k - n)) in
  let hi := lo + 1 in
  let pick (s : Z) := if s =? 10 ^ k then (1, 1, n + 1) else (s, k, n) in
  match fuel with
  | O => (lo, k, n)
  | S fuel' =>
      match denotes lo (n - k) m e, denotes hi (n - k) m e with
      | true, false => pick lo
      | false, true => pick hi
      | true, true =>
          match ratCompare (scaled (2 * Zpos m) e 0) (scaled (lo + hi) 0 (n - k)) with
          | Lt => pick lo
          | Gt => pick hi
          | Eq => if Z.even lo then pick lo else pick hi
          end
      | false, false => shortestDigits fuel' m e n (k + 1)
      end
  end.

Definition decimalOfZ (z : Z) : string := NilZero.string_of_uint (N.to_uint (Z.to_N z)).

Fixpoint zeros (n : nat) : string :=
  match n with
  | O => EmptyString
  | S n' => String "0" (zeros n')
  end.

Definition formatDigits (s k n : Z) : string :=
  let digits := decimalOfZ s in
  if (k <=? n) && (n <=? 21) then digits ++ zeros (Z.to_nat (n - k))
  else if (0 <? n) && (n <=? 21) then
    substring 0 (Z.to_nat n) digits ++ "." ++ substring (Z.to_nat n) (Z.to_nat (k - n)) digits
  else if (-6 <? n) && (n <=? 0) then "0." ++ zeros (Z.to_nat (- n)) ++ digits
  else
    let exponent := (if 0 <=? n - 1 then "+" else "-") ++ decimalOfZ (Z.abs (n - 1)) in
    if k =? 1 then digits ++ "e" ++ exponent
    else substring 0 1 digits ++ "." ++ substring 1 (Z.to_nat (k - 1)) digits ++ "e" ++ exponent.

Definition Number_toString (x : float) : string :=
  match Prim2SF x with
  | S754_nan => "NaN"
  | S754_zero _ => "0"
  | S754_infinity neg => if neg then "-Infinity" else "Infinity"
  | S754_finite neg m e =>
      let '(s, k, n) := shortestDigits 17 m e (decimalExponent (Zpos m) e) 1 in
      (if neg then "-" else "") ++ formatDigits s k n
  end.

(** *** Properties *)

(** The own properties of an object are an association list: the first
    binding of a key is the property. *)
Fixpoint lookup (key : string) (properties : list (string * value)) : option value :=
  match properties with
  | [] => None
  | (k, v) :: rest => if String.eqb k key then Some v else lookup key rest
  end.

(** [v.key] for the property names this program reads ([type],
    [amount], [accountNumber], [accountHolder], [initialBalance],
    [currency], [transactions], [index]): an own property of a plain
    object; none of them is an own or inherited property of an array or
    of a primitive, which give [undefined]. *)
Definition get (v : value) (key : string) : value :=
  match v with
  | VObj properties =>
      match lookup key properties with
      | Some x => x
      | None => VUndefined
      end
  | _ => VUndefined
  end.

(** [{ ...properties, key: v }]: the property is replaced where it is,
    or added after the others. *)
Fixpoint set (key : string) (v : value) (properties : list (string * value))
  : list (string * value) :=
  match properties with
  | [] => [(key, v)]
  | (k, x) :: rest =>
      if String.eqb k key then (k, v) :: rest else (k, x) :: set key v rest
  end.

Fixpoint indexed {A : Type} (f : A -> value) (i : nat) (l : list A) : list (string * value) :=
  match l with
  | [] => []
  | x :: rest => (NilZero.string_of_uint (Nat.to_uint i), f x) :: indexed f (S i) rest
  end.

(** The own enumerable properties that [{ ...v }] copies: those of an
    object, the elements of an array and the characters of a string
    under their indices, none for the other primitives. *)
Definition spread (v : value) : list (string * value) :=
  match v with
  | VObj properties => properties
  | VArr elements => indexed (fun e => e) 0 elements
  | VStr s => indexed (fun c => VStr (String c EmptyString)) 0 (list_ascii_of_string s)
  | _ => []
  end.

(** [v === s] for a string literal [s]. *)
Definition strictEqualsString (v : value) (s : string) : bool :=
  match v with
  | VStr t => String.eqb t s
  | _ => false
  end.

(** *** ToString, ToNumber, ToBoolean, typeof *)

(** The message of the TypeError that ToPrimitive throws when neither
    [toString] nor [valueOf] gives a primitive.  The text is the
    engine's; this is that of V8 (Node.js). *)
Definition cannotConvert : string := "Cannot convert object to primitive value".

(** [ToString] as a template literal and [Array.prototype.join] apply
    it.  An array is the text of its elements joined by commas, where
    [undefined] and [null] elements give the empty text.  An object goes
    through ToPrimitive, which calls its [toString] and then its
    [valueOf] if they are callable: the inherited [toString] gives
    ["[object Object]"]; an own property [toString] hides it and is not
    callable, the [valueOf] that is left (own and not callable, or
    inherited and returning the object itself) gives no primitive, and a
    TypeError is thrown. *)
Fixpoint ToString (v : value) : Throws string :=
  match v with
  | VUndefined => ret "undefined"
  | VNull => ret "null"
  | VBool b => ret (if b then "true" else "false")
  | VNum x => ret (Number_toString x)
  | VStr s => ret s
  | VArr elements =>
      (fix join (l : list value) : Throws string :=
         match l with
         | [] => ret ""
         | e :: rest =>
             text <- match e with
                     | VUndefined | VNull => ret ""
                     | _ => ToString e
                     end ;;
             match rest with
             | [] => ret text
             | _ :: _ => others <- join rest ;; ret (text ++ "," ++ others)
             end
         end) elements
  | VObj properties =>
      match lookup "toString" properties with
      | Some _ => throw cannotConvert
      | None => ret "[object Object]"
      end
  end.

(** [Number(value)].  Arrays and objects go through ToPrimitive, which
    here tries [valueOf] first: it is not callable, or returns the
    object itself, so that [toString] decides as above and its text is
    parsed. *)
Definition Number (v : value) : Throws float :=
  match v with
  | VUndefined => ret nan
  | VNull => ret zero
  | VBool b => ret (if b then one else zero)
  | VNum x => ret x
  | VStr s => ret (StringToNumber s)
  | VArr _ | VObj _ => text <- ToString v ;; ret (StringToNumber text)
  end.

(** Truthiness, the operand of [!] and of [if]. *)
Definition ToBoolean (v : value) : bool :=
  match v with
  | VUndefined | VNull => false
  | VBool b => b
  | VNum x => negb (is_nan x || is_zero x)
  | VStr s => negb (String.eqb s "")
  | VArr _ | VObj _ => true
  end.

Definition typeof (v : value) : string :=
  match v with
  | VUndefined => "undefined"
  | VNull | VArr _ | VObj _ => "object"
  | VBool _ => "boolean"
  | VNum _ => "number"
  | VStr _ => "string"
  end.

Definition isArray (v : value) : bool :=
  match v with
  | VArr _ => true
  | _ => false
  end.

(** The global [isFinite] and [isNaN] on a number. *)
Definition isNaN (x : float) : bool := is_nan x.
Definition isFinite (x : float) : bool := negb (is_nan x || is_infinity x).

(** [Number(i)] for an array index or a length. *)
Definition ofNat (n : nat) : float :=
  SF2Prim (binary_normalize prec emax (Z.of_nat n) 0 false).

End JS.

Import JS.

(** ** Utility helpers *)

(** Lines 10-13.  [Number(value)] may throw. *)
Definition toNumber (value : value) : Throws (option float) :=
  n <- Number value ;;
  ret (if isFinite n && negb (isNaN n) then Some n else None).

(** [array.includes(v)] for an array of string literals. *)
Definition includes (array : list string) (v : value) : bool :=
  existsb (strictEqualsString v) array.

(** Lines 18-19. *)
Definition isTransactionType (type : value) : bool :=
  String.eqb (typeof type) "string" && includes ["Deposit"; "Withdraw"] type.

(** [{ ok: false, error }] or [{ ok: true, amount }]. *)
Inductive validation : Type :=
| Invalid (error : string)
| Valid (amount : float).

Definition isNullish (v : value) : bool :=
  match v with
  | VUndefined | VNull => true
  | _ => false
  end.

(** Lines 24-51.  The template literals of lines 34 and 43 and the
    coercion of line 41 may throw. *)
Definition validateTransaction (txn : value) : Throws validation :=
  if negb (ToBoolean txn) || negb (String.eqb (typeof txn) "object") then
    ret (Invalid "Invalid transaction object")
  else if negb (ToBoolean (get txn "type")) then
    ret (Invalid "Missing transaction type")
  else if negb (isTransactionType (get txn "type")) then
    type <- ToString (get txn "type") ;;
    ret (Invalid ("Unknown transaction type: " ++ type))
  else if isNullish (get txn "amount") then
    ret (Invalid "Missing transaction amount")
  else
    coerced <- toNumber (get txn "amount") ;;
    match coerced with
    | None =>
        raw <- ToString (get txn "amount") ;;
        ret (Invalid ("Invalid amount: " ++ raw))
    | Some amount =>
        if (amount <=? 0)%float then
          ret (Invalid ("Amount must be positive: " ++ Number_toString amount))
        else ret (Valid amount)
    end.

(** ** The account and the outcome of one transaction *)

Record Account : Type := {
  accountNumber : value;
  accountHolder : value;
  currency : value;
  initialBalance : float;
  balance : float
}.

(** [account.balance = b]. *)
Definition setBalance (account : Account) (b : float) : Account :=
  {| accountNumber := accountNumber account;
     accountHolder := accountHolder account;
     currency := currency account;
     initialBalance := initialBalance account;
     balance := b |}.

(** What [applyTransaction] returns: [{ applied: true, transaction }] or
    [{ applied: false, reason, transaction }]. *)
Inductive result : Type :=
| Applied (transaction : value)
| NotApplied (reason : string) (transaction : value).

(** [index + 1] on the callback's index. *)
Definition position (index : nat) : float := (ofNat index + 1)%float.

(** Lines 57-85.  The account is mutated in place, at line 79 alone: the
    account after the call is returned with the result.  A call in which
    the validation throws has not touched the account. *)
Definition applyTransaction (account : Account) (index : nat) (transaction : value)
  : Throws (Account * result) :=
  validation <- validateTransaction transaction ;;
  match validation with
  | Invalid error =>
      ret (account,
           NotApplied error
             (VObj (set "index" (VNum (position index)) (spread transaction))))
  | Valid amount =>
      if strictEqualsString (get transaction "type") "Withdraw"
         && (balance account <? amount)%float
      then
        ret (account,
             NotApplied
               ("Insufficient balance: required " ++ Number_toString amount
                ++ ", available " ++ Number_toString (balance account))
               (VObj (set "index" (VNum (position index)) (spread transaction))))
      else
        ret (setBalance account
               (balance account
                + (if strictEqualsString (get transaction "type") "Deposit"
                   then amount else - amount))%float,
             Applied
               (VObj (set "index" (VNum (position index))
                        (set "amount" (VNum amount) (spread transaction)))))
  end.

(** ** Main system *)

(** An element of [rejected]: the [{ error: "System Error", message }]
    pushed by the [catch] block, or a result that was not applied. *)
Inductive rejectedEntry : Type :=
| SystemError (message : string)
| RejectedTransaction (reason : string) (transaction : value).

(** The variables of [processBankingTransaction] that the loop updates. *)
Record Progress : Type := {
  current : Account;
  appliedSoFar : list value;
  rejectedSoFar : list rejectedEntry
}.

(** Line 128. *)
Definition record (p : Progress) (step : Account * result) : Progress :=
  match snd step with
  | Applied transaction =>
      {| current := fst step;
         appliedSoFar := appliedSoFar p ++ [transaction];
         rejectedSoFar := rejectedSoFar p |}
  | NotApplied reason transaction =>
      {| current := fst step;
         appliedSoFar := appliedSoFar p;
         rejectedSoFar := rejectedSoFar p ++ [RejectedTransaction reason transaction] |}
  end.

(** Lines 126-129: [transactions.forEach((txn, i) => ...)], from index
    [i] on.  An error thrown by the callback ends the loop: the
    variables are left as the calls before it made them, and the message
    of the error is returned with them. *)
Fixpoint forEach (transactions : list value) (i : nat) (p : Progress)
  : Progress * option string :=
  match transactions with
  | [] => (p, None)
  | txn :: rest =>
      match applyTransaction (current p) i txn with
      | inl message => (p, Some message)
      | inr step => forEach rest (S i) (record p step)
      end
  end.

(** Lines 100-124: the checks of the [try] block and the account they
    lead to, with the transactions to run.  The coercion of line 112 and
    the template literal of line 114 may throw as well. *)
Definition initialize (input : value) : Throws (Account * list value) :=
  throwIf (negb (ToBoolean input) || negb (String.eqb (typeof input) "object"))
          "Input must be a valid object" ;;
  let accountNumber := get input "accountNumber" in
  let accountHolder := get input "accountHolder" in
  let initialBalance := get input "initialBalance" in
  let currency := get input "currency" in
  let transactions := get input "transactions" in
  throwIf (negb (ToBoolean accountNumber)) "Missing account number" ;;
  throwIf (negb (ToBoolean accountHolder)) "Missing account holder" ;;
  throwIf (isNullish initialBalance) "Missing initial balance" ;;
  throwIf (negb (ToBoolean currency)) "Missing currency" ;;
  throwIf (negb (isArray transactions)) "Transactions must be an array" ;;
  coerced <- toNumber initialBalance ;;
  match coerced with
  | None =>
      raw <- ToString initialBalance ;;
      throw ("Invalid initial balance: " ++ raw)
  | Some startingBalance =>
      ret ({| accountNumber := accountNumber;
              accountHolder := accountHolder;
              currency := currency;
              initialBalance := startingBalance;
              balance := startingBalance |},
           match transactions with
           | VArr elements => elements
           | _ => []
           end)
  end.

(** What [processBankingTransaction] has computed when it ends: its
    variables [account], [applied], [rejected] and [logMessage], and the
    message of the error it ends with, if it throws one.  (The function
    returns nothing; it prints these to the console, which is not
    modelled.) *)
Record Summary : Type := {
  account : option Account;
  applied : list value;
  rejected : list rejectedEntry;
  logMessage : string;
  uncaught : option string
}.

Definition lengthText {A : Type} (l : list A) : string :=
  Number_toString (ofNat (List.length l)).

(** Lines 131-134: [rejected] after the [catch] block, which is entered
    when an error was thrown. *)
Definition caught (rejected : list rejectedEntry) (error : option string)
  : list rejectedEntry :=
  match error with
  | Some message => rejected ++ [SystemError message]
  | None => rejected
  end.

(** Lines 143-145: the template literals of the report that convert the
    holder, the number and the currency of the account, in this order.
    They are outside the [try] block: an error they throw ends the
    function.  The other template literals of the report convert numbers
    and strings. *)
Definition reportAccount (account : Account) : Throws unit :=
  ToString (accountHolder account) ;;
  ToString (accountNumber account) ;;
  ToString (currency account) ;;
  ret tt.

(** Lines 93-184.  When no account was opened the error was caught and
    [logMessage] is its message.  When one was, an error thrown in the
    loop is caught in the same way, then the report is printed and line
    176 sets [logMessage], unless the report throws. *)
Definition processBankingTransaction (input : value) : Summary :=
  match initialize input with
  | inl message =>
      {| account := None;
         applied := [];
         rejected := [SystemError message];
         logMessage := message;
         uncaught := None |}
  | inr (opened, transactions) =>
      let '(p, error) :=
        forEach transactions 0
          {| current := opened; appliedSoFar := []; rejectedSoFar := [] |} in
      match reportAccount (current p) with
      | inl message =>
          {| account := Some (current p);
             applied := appliedSoFar p;
             rejected := caught (rejectedSoFar p) error;
             logMessage := match error with
                           | Some caughtMessage => caughtMessage
                           | None => ""
                           end;
             uncaught := Some message |}
      | inr _ =>
          {| account := Some (current p);
             applied := appliedSoFar p;
             rejected := caught (rejectedSoFar p) error;
             logMessage := "Completed: " ++ lengthText (appliedSoFar p) ++ " applied, "
                           ++ lengthText (caught (rejectedSoFar p) error) ++ " rejected.";
             uncaught := None |}
      end
  end.

(** ** The test cases of the source (lines 189-227) *)

Definition request (type : string) (amount : value) : value :=
  VObj [("type", VStr type); ("amount", amount)].

Definition testCase1 : value :=
  VObj [("accountNumber", VStr "ACC001");
        ("accountHolder", VStr "John Doe");
        ("initialBalance", VNum 1000);
        ("currency", VStr "USD");
        ("transactions",
         VArr [request "Deposit" (VNum 500); request "Withdraw" (VNum 200); request "Deposit" (VNum 300)])].

Definition testCase2 : value :=
  VObj [("accountNumber", VStr "ACC002");
        ("accountHolder", VStr "Jane Smith");
        ("initialBalance", VStr "2000");
        ("currency", VStr "EUR");
        ("transactions",
         VArr [request "Deposit" (VNum 500);
               request "Withdraw" (VNum 3000);
               request "Deposit" (VNum (-100));
               request "Unknown" (VNum 50);
               VObj [("type", VStr "Withdraw")];
               VObj [("amount", VNum 200)];
               request "Deposit" (VStr "invalid")])].

Definition testCase3 : value :=
  VObj [("accountNumber", VStr "ACC003");
        ("accountHolder", VStr "Bob Johnson");
        ("initialBalance", VStr "500.50");
        ("currency", VStr "GBP");
        ("transactions",
         VArr [request "Deposit" (VStr "250.75"); request "Withdraw" (VNum 0); request "Withdraw" (VNum 750.25)])].

(** ** Reading a run *)

Definition transactionOf (r : result) : value :=
  match r with
  | Applied transaction => transaction
  | NotApplied _ transaction => transaction
  end.

(** What the calls of [applyTransaction] made by the loop return, in
    order, from index [i] and account [a] on, up to the end of the list
    or to the call that throws. *)
Fixpoint results (transactions : list value) (i : nat) (a : Account) : list result :=
  match transactions with
  | [] => []
  | t :: rest =>
      match applyTransaction a i t with
      | inl _ => []
      | inr step => snd step :: results rest (S i) (fst step)
      end
  end.

(** The account when the loop ends. *)
Fixpoint accountAfter (transactions : list value) (i : nat) (a : Account) : Account :=
  match transactions with
  | [] => a
  | t :: rest =>
      match applyTransaction a i t with
      | inl _ => a
      | inr step => accountAfter rest (S i) (fst step)
      end
  end.

(** The message of the error that ends the loop, if a call throws. *)
Fixpoint errorOf (transactions : list value) (i : nat) (a : Account) : option string :=
  match transactions with
  | [] => None
  | t :: rest =>
      match applyTransaction a i t with
      | inl message => Some message
      | inr step => errorOf rest (S i) (fst step)
      end
  end.

Definition appliedOf (rs : list result) : list value :=
  flat_map (fun r => match r with
                     | Applied transaction => [transaction]
                     | NotApplied _ _ => []
                     end) rs.

Definition rejectedOf (rs : list result) : list rejectedEntry :=
  flat_map (fun r => match r with
                     | Applied _ => []
                     | NotApplied reason transaction => [RejectedTransaction reason transaction]
                     end) rs.

(** [t.amount] as a number and [t.type === type], for an entry of
    [applied], whose amount is a number. *)
Definition amountOf (t : value) : float :=
  match Number (get t "amount") with
  | inr x => x
  | inl _ => nan
  end.

Definition hasType (type : string) (t : value) : bool :=
  strictEqualsString (get t "type") type.

(** What line 79 adds to the balance for an applied transaction. *)
Definition signedAmount (t : value) : float :=
  if hasType "Deposit" t then amountOf t else (- amountOf t)%float.

(** The balance that results from [start] when the applied
    transactions are added one after the other, each addition rounded. *)
Definition runningBalance (start : float) (applied : list value) : float :=
  fold_left (fun b t => (b + signedAmount t)%float) applied start.

(** The amounts of the applied transactions of one type, added up. *)
Definition sumOf (type : string) (applied : list value) : float :=
  fold_left (fun total t => if hasType type t then (total + amountOf t)%float else total)
            applied 0%float.

(** The ending balance as the specification's property computes it:
    initial balance + (sum of applied Deposit amounts) - (sum of applied
    Withdraw amounts). *)
Definition spec_endingBalance (initial : float) (applied : list value) : float :=
  (initial + sumOf "Deposit" applied - sumOf "Withdraw" applied)%float.

(** The checks of lines 25-39 pass, so that line 41 coerces
    [txn.amount]. *)
Definition amountIsCoerced (t : value) : bool :=
  ToBoolean t && String.eqb (typeof t) "object"
  && ToBoolean (get t "type") && isTransactionType (get t "type")
  && negb (isNullish (get t "amount")).

(** The first message, in the order of the list, whose condition holds. *)
Fixpoint firstFailure (checks : list (bool * string)) : option string :=
  match checks with
  | [] => None
  | (failed, message) :: rest => if failed then Some message else firstFailure rest
  end.

Definition fieldChecks (input : value) : list (bool * string) :=
  [(negb (ToBoolean input) || negb (String.eqb (typeof input) "object"),
    "Input must be a valid object");
   (negb (ToBoolean (get input "accountNumber")), "Missing account number");
   (negb (ToBoolean (get input "accountHolder")), "Missing account holder");
   (isNullish (get input "initialBalance"), "Missing initial balance");
   (negb (ToBoolean (get input "currency")), "Missing currency")].

(** The initial balance is not coerced to a finite number: the coercion
    returns [null], and the message shows the raw value, or it throws,
    and the message is that of the error. *)
Definition balanceCheck (input : value) : bool * string :=
  match toNumber (get input "initialBalance") with
  | inr (Some _) => (false, "")
  | inr None =>
      (true,
       match ToString (get input "initialBalance") with
       | inr raw => "Invalid initial balance: " ++ raw
       | inl message => message
       end)
  | inl message => (true, message)
  end.

Definition transactionsCheck (input : value) : bool * string :=
  (negb (isArray (get input "transactions")), "Transactions must be an array").

(** The order of the structural checks as the specification lists them:
    the descriptor's fields, then the initial balance, then the
    transaction list. *)
Definition spec_structuralChecks (input : value) : list (bool * string) :=
  fieldChecks input ++ [balanceCheck input; transactionsCheck input].

(** The same checks with the transaction list before the initial
    balance. *)
Definition structuralChecks (input : value) : list (bool * string) :=
  fieldChecks input ++ [transactionsCheck input; balanceCheck input].

(** ** Further inputs *)

Definition descriptor (initialBalance transactions : value) : value :=
  VObj [("accountNumber", VStr "ACC100");
        ("accountHolder", VStr "Ada Holder");
        ("initialBalance", initialBalance);
        ("currency", VStr "USD");
        ("transactions", transactions)].

Definition opening (b : float) : Account :=
  {| accountNumber := VStr "ACC100"; accountHolder := VStr "Ada Holder";
     currency := VStr "USD"; initialBalance := b; balance := b |}.

(** The reason of line 73. *)
Definition insufficient (amount available : float) : string :=
  "Insufficient balance: required " ++ Number_toString amount
  ++ ", available " ++ Number_toString available.

(** Two deposits of 1 into an account opened at 2^53. *)
Definition roundingCase : value :=
  descriptor (VNum 9007199254740992)
    (VArr [request "Deposit" (VNum 1); request "Deposit" (VNum 1)]).

(** An initial balance that is not a number and transactions that are
    not an array. *)
Definition crossedCase : value := descriptor (VStr "abc") (VStr "none").

(** Three deposits, the second with an amount that is an object with a
    property [toString] of its own: [{ toString: "x" }]. *)
Definition throwingCase : value :=
  descriptor (VNum 10)
    (VArr [request "Deposit" (VNum 1);
           request "Deposit" (VObj [("toString", VStr "x")]);
           request "Deposit" (VNum 1)]).

(** ** Further readings of a run *)

(** The sign classes of a number that is not below zero. *)
Definition notNegative (x : spec_float) : bool :=
  match x with
  | S754_zero _ | S754_infinity false | S754_finite false _ _ => true
  | _ => false
  end.

(** The transactions that the loop applies, as they stand in the input. *)
Fixpoint kept (transactions : list value) (i : nat) (a : Account) : list value :=
  match transactions with
  | [] => []
  | t :: rest =>
      match applyTransaction a i t with
      | inl _ => []
      | inr step =>
          match snd step with
          | Applied _ => t :: kept rest (S i) (fst step)
          | NotApplied _ _ => kept rest (S i) (fst step)
          end
      end
  end.

(** ** The conversions and the test cases, evaluated *)

Example StringToNumber_examples :
  map StringToNumber
      ["500.50"; "250.75"; "2000"; " 12 "; "1e3"; ".5"; "5."; "-0"; "0x1F"; "";
       "invalid"; "12px"; "1,2"; "[object Object]"; "Infinity"; "1e400"]
  = [500.5; 250.75; 2000; 12; 1000; 0.5; 5; -0; 31; 0;
     nan; nan; nan; nan; infinity; infinity]%float.
Proof. vm_compute. reflexivity. Qed.

Example Number_toString_examples :
  map Number_toString
      [2500; -100; 0; -0; 751.25; 0.5; 1e21; 9007199254740992; nan; neg_infinity]%float
  = ["2500"; "-100"; "0"; "0"; "751.25"; "0.5"; "1e+21"; "9007199254740992";
     "NaN"; "-Infinity"].
Proof. vm_compute. reflexivity. Qed.

Example Number_toString_of_parsed :
  map (fun s => Number_toString (StringToNumber s))
      ["123456789012345680000"; "1234567890123456800000"; "1.5e-7"; "0.000001";
       "0.1"; "5e-324"; "1.7976931348623157e308"; "1e23"; "00012.50"]
  = ["123456789012345680000"; "1.2345678901234568e+21"; "1.5e-7"; "0.000001";
     "0.1"; "5e-324"; "1.7976931348623157e+308"; "1e+23"; "12.5"].
Proof. vm_compute. reflexivity. Qed.

Example Number_toString_shortest :
  Number_toString (StringToNumber "0.1" + StringToNumber "0.2")%float
  = "0.30000000000000004".
Proof. vm_compute. reflexivity. Qed.

(** Scenario A: the three transactions are applied and the balance ends
    at 1600, which here is also the grouped sum. *)
Example scenario_A :
  let s := processBankingTransaction testCase1 in
  option_map balance (account s) = Some 1600%float
  /\ List.length (applied s) = 3%nat
  /\ rejected s = []
  /\ spec_endingBalance 1000 (applied s) = 1600%float
  /\ logMessage s = "Completed: 3 applied, 0 rejected.".
Proof. repeat apply conj; vm_compute; reflexivity. Qed.

(** Scenario B: one transaction is applied, six are rejected, each for
    its own reason, and the balance ends at 2500. *)
Example scenario_B :
  let s := processBankingTransaction testCase2 in
  option_map balance (account s) = Some 2500%float
  /\ applied s = [VObj [("type", VStr "Deposit"); ("amount", VNum 500); ("index", VNum 1)]]
  /\ map (fun entry => match entry with
                       | SystemError message => message
                       | RejectedTransaction reason _ => reason
                       end) (rejected s)
     = ["Insufficient balance: required 3000, available 2500";
        "Amount must be positive: -100";
        "Unknown transaction type: Unknown";
        "Missing transaction amount";
        "Missing transaction type";
        "Invalid amount: invalid"]
  /\ logMessage s = "Completed: 1 applied, 6 rejected.".
Proof. repeat apply conj; vm_compute; reflexivity. Qed.

(** ** Properties and objects *)

Lemma lookup_set_same key v properties :
  lookup key (set key v properties) = Some v.
Proof.
  induction properties as [|[k x] rest IH]; simpl.
  - now rewrite String.eqb_refl.
  - destruct (String.eqb k key) eqn:E; simpl; rewrite E; auto.
Qed.

Lemma lookup_set_other key key' v properties :
  key' <> key -> lookup key' (set key v properties) = lookup key' properties.
Proof.
  intros Hne.
  induction properties as [|[k x] rest IH]; simpl.
  - destruct (String.eqb_spec key key'); congruence.
  - destruct (String.eqb_spec k key) as [->|Hk]; simpl.
    + destruct (String.eqb_spec key key'); congruence.
    + now rewrite IH.
Qed.

Lemma get_set_same key v properties :
  get (VObj (set key v properties)) key = v.
Proof. simpl. now rewrite lookup_set_same. Qed.

Lemma get_set_other key key' v properties :
  key' <> key -> get (VObj (set key v properties)) key' = get (VObj properties) key'.
Proof. intros H. simpl. now rewrite lookup_set_other. Qed.

(** ** Binary64 facts *)

Lemma Prim2SF_zero : Prim2SF 0%float = S754_zero false.
Proof. reflexivity. Qed.

Lemma Prim2SF_infinity : Prim2SF infinity = S754_infinity false.
Proof. reflexivity. Qed.

Lemma isFinite_not_NaN x : isFinite x = true -> isNaN x = false.
Proof.
  unfold isFinite, isNaN. destruct (is_nan x); simpl; congruence.
Qed.

(** A finite number that is not [<= 0] is a positive finite one. *)
Lemma positive_finite x :
  isFinite x = true -> (x <=? 0)%float = false ->
  exists m e, Prim2SF x = S754_finite false m e.
Proof.
  unfold isFinite, is_nan, is_infinity.
  rewrite leb_spec, !eqb_spec, abs_spec, Prim2SF_zero, Prim2SF_infinity.
  destruct (Prim2SF x) as [s|s| |s m e]; simpl; try discriminate.
  - destruct s; discriminate.
  - destruct s; [discriminate|]. intros _ _. now exists m, e.
Qed.

Lemma SFcompare_finite_refl s m e :
  SFcompare (S754_finite s m e) (S754_finite s m e) = Some Eq.
Proof.
  simpl. rewrite Z.compare_refl, Pos.compare_cont_refl. now destruct s.
Qed.

Lemma ltb_irrefl_finite x s m e :
  Prim2SF x = S754_finite s m e -> (x <? x)%float = false.
Proof.
  intros H. rewrite ltb_spec, H. unfold SFltb. now rewrite SFcompare_finite_refl.
Qed.

(** Numerical equality with a positive finite number is identity. *)
Lemma eqb_finite_eq x y m e :
  Prim2SF x = S754_finite false m e -> (x =? y)%float = true -> y = x.
Proof.
  intros Hx. rewrite eqb_spec, Hx. unfold SFeqb. intros H.
  apply Prim2SF_inj. rewrite Hx.
  destruct (Prim2SF y) as [s|s| |s m' e']; simpl in H; try discriminate.
  - destruct s; discriminate.
  - destruct s; [discriminate|].
    destruct (Z.compare_spec e e') as [->| |]; try discriminate.
    destruct (Pos.compare_cont Eq m m') eqn:Hm; try discriminate.
    apply Pos.compare_eq in Hm. now subst.
Qed.

(** Taking a positive finite number from itself leaves [+0]. *)
Lemma add_opp_finite x m e :
  Prim2SF x = S754_finite false m e -> (x + - x)%float = 0%float.
Proof.
  intros Hx. apply Prim2SF_inj.
  rewrite add_spec, opp_spec, Hx, Prim2SF_zero. unfold SF64add. simpl.
  rewrite Z.min_id. unfold shl_align. rewrite Z.sub_diag. simpl.
  now rewrite Z.pos_sub_diag.
Qed.

(** ** Conversions that return *)

Lemma Number_ToString v n : Number v = ret n -> exists text, ToString v = ret text.
Proof.
  unfold Number, bind, ret.
  destruct v as [| |b|x|s|elements|properties]; try (simpl; eauto; fail).
  - destruct (ToString (VArr elements)); [discriminate|eauto].
  - destruct (ToString (VObj properties)); [discriminate|eauto].
Qed.

Lemma ToString_object properties :
  ToString (VObj properties)
  = match lookup "toString" properties with
    | Some _ => throw cannotConvert
    | None => ret "[object Object]"
    end.
Proof. reflexivity. Qed.

(** ** Validation *)

Lemma toNumber_spec v :
  toNumber v = (n <- Number v ;; ret (if isFinite n then Some n else None)).
Proof.
  unfold toNumber, bind. destruct (Number v) as [message|n]; [reflexivity|].
  destruct (isFinite n) eqn:E; simpl; [|reflexivity].
  now rewrite (isFinite_not_NaN _ E).
Qed.

Lemma toNumber_finite v x :
  toNumber v = ret (Some x) -> isFinite x = true /\ Number v = ret x.
Proof.
  rewrite toNumber_spec. unfold bind, ret.
  destruct (Number v) as [message|n]; [discriminate|].
  destruct (isFinite n) eqn:E; [|discriminate]. intros [= <-]. auto.
Qed.

Lemma toNumber_returns v coerced :
  toNumber v = ret coerced -> exists text, ToString v = ret text.
Proof.
  rewrite toNumber_spec. unfold bind.
  destruct (Number v) as [message|n] eqn:E; [discriminate|].
  intros _. exact (Number_ToString _ _ E).
Qed.

Lemma isTransactionType_inv v :
  isTransactionType v = true -> v = VStr "Deposit" \/ v = VStr "Withdraw".
Proof.
  unfold isTransactionType, includes. simpl.
  destruct v; simpl; try discriminate.
  rewrite orb_false_r. intros H. apply orb_true_iff in H.
  destruct H as [H|H]; apply String.eqb_eq in H; subst; auto.
Qed.

(** An object whose [type] is truthy is a plain object: the others
    have no [type]. *)
Lemma truthy_get_object t key :
  ToBoolean (get t key) = true -> exists properties, t = VObj properties.
Proof.
  destruct t; simpl; try discriminate. eauto.
Qed.

Lemma amountIsCoerced_inv t :
  amountIsCoerced t = true ->
  (exists properties, t = VObj properties)
  /\ (get t "type" = VStr "Deposit" \/ get t "type" = VStr "Withdraw")
  /\ isNullish (get t "amount") = false.
Proof.
  unfold amountIsCoerced. rewrite !andb_true_iff, negb_true_iff.
  intros [[[[_ _] Htruthy] Htype] Hamount].
  eauto using truthy_get_object, isTransactionType_inv.
Qed.

(** What [validateTransaction] does once the amount is coerced. *)
Lemma validateTransaction_coerced t :
  amountIsCoerced t = true ->
  validateTransaction t =
    (coerced <- toNumber (get t "amount") ;;
     match coerced with
     | None =>
         raw <- ToString (get t "amount") ;;
         ret (Invalid ("Invalid amount: " ++ raw))
     | Some amount =>
         if (amount <=? 0)%float
         then ret (Invalid ("Amount must be positive: " ++ Number_toString amount))
         else ret (Valid amount)
     end).
Proof.
  unfold amountIsCoerced, validateTransaction.
  rewrite !andb_true_iff, negb_true_iff.
  intros [[[[-> ->] ->] ->] ->]. reflexivity.
Qed.

Lemma validateTransaction_Valid t amount :
  validateTransaction t = ret (Valid amount) ->
  amountIsCoerced t = true
  /\ toNumber (get t "amount") = ret (Some amount)
  /\ (amount <=? 0)%float = false.
Proof.
  unfold validateTransaction, amountIsCoerced, bind, ret.
  destruct (ToBoolean t); simpl; [|discriminate].
  destruct (String.eqb (typeof t) "object"); simpl; [|discriminate].
  destruct (ToBoolean (get t "type")); simpl; [|discriminate].
  destruct (isTransactionType (get t "type")); simpl;
    [|destruct (ToString (get t "type")); discriminate].
  destruct (isNullish (get t "amount")); simpl; [discriminate|].
  destruct (toNumber (get t "amount")) as [message|[x|]]; [discriminate| |].
  - destruct (x <=? 0)%float eqn:E; [discriminate|]. intros [= <-]. auto.
  - destruct (ToString (get t "amount")); discriminate.
Qed.

(** Whatever the other checks say, a transaction is valid only with an
    amount that coerces to a number that is not [<= 0]. *)
Lemma validateTransaction_nonpositive t amount x :
  toNumber (get t "amount") = ret (Some amount) -> (amount <=? 0)%float = true ->
  validateTransaction t <> ret (Valid x).
Proof.
  intros Hn Hle V. apply validateTransaction_Valid in V.
  destruct V as (_ & Hx & Hpos). rewrite Hn in Hx. injection Hx as <-. congruence.
Qed.

Lemma get_type_applied i amount properties :
  get (VObj (set "index" i (set "amount" amount properties))) "type"
  = get (VObj properties) "type".
Proof.
  rewrite !get_set_other; [reflexivity| |]; discriminate.
Qed.

Lemma get_amount_applied i amount properties :
  get (VObj (set "index" i (set "amount" amount properties))) "amount" = amount.
Proof.
  rewrite get_set_other by discriminate. apply get_set_same.
Qed.

Lemma valid_amount_finite t amount :
  validateTransaction t = ret (Valid amount) ->
  exists m e, Prim2SF amount = S754_finite false m e.
Proof.
  intros V. apply validateTransaction_Valid in V. destruct V as (_ & Hn & Hpos).
  apply toNumber_finite in Hn. destruct Hn as [Hfin _].
  now apply positive_finite.
Qed.

Lemma valid_type t amount :
  validateTransaction t = ret (Valid amount) ->
  (hasType "Deposit" t = true /\ hasType "Withdraw" t = false)
  \/ (hasType "Deposit" t = false /\ hasType "Withdraw" t = true).
Proof.
  intros V. apply validateTransaction_Valid in V. destruct V as (Hc & _ & _).
  apply amountIsCoerced_inv in Hc. destruct Hc as (_ & [E|E] & _);
    unfold hasType; rewrite E; auto.
Qed.

(** ** One call of [applyTransaction] *)

Lemma applyTransaction_valid a i t amount :
  validateTransaction t = ret (Valid amount) ->
  applyTransaction a i t
  = if hasType "Withdraw" t && (balance a <? amount)%float
    then ret (a, NotApplied (insufficient amount (balance a))
                   (VObj (set "index" (VNum (position i)) (spread t))))
    else ret (setBalance a
                (balance a + (if hasType "Deposit" t then amount else - amount))%float,
              Applied (VObj (set "index" (VNum (position i))
                               (set "amount" (VNum amount) (spread t))))).
Proof. intros V. unfold applyTransaction. rewrite V. reflexivity. Qed.

Lemma applyTransaction_invalid a i t error :
  validateTransaction t = ret (Invalid error) ->
  applyTransaction a i t
  = ret (a, NotApplied error (VObj (set "index" (VNum (position i)) (spread t)))).
Proof. intros V. unfold applyTransaction. now rewrite V. Qed.

Lemma applyTransaction_throws a i t message :
  applyTransaction a i t = throw message <-> validateTransaction t = throw message.
Proof.
  unfold applyTransaction, bind, throw, ret.
  destruct (validateTransaction t) as [m|[error|amount]]; split; try discriminate; try congruence.
  destruct (strictEqualsString (get t "type") "Withdraw" && (balance a <? amount)%float);
    discriminate.
Qed.

(** A call throws and leaves the account as it is, or rejects and
    leaves it as it is, or applies and adds the signed amount of the
    transaction it records. *)
Lemma applyTransaction_cases a i t :
  (exists message, applyTransaction a i t = throw message)
  \/ (exists reason,
         applyTransaction a i t
         = ret (a, NotApplied reason (VObj (set "index" (VNum (position i)) (spread t)))))
  \/ (exists amount,
         validateTransaction t = ret (Valid amount)
         /\ applyTransaction a i t
            = ret (setBalance a (balance a + signedAmount
                                   (VObj (set "index" (VNum (position i))
                                            (set "amount" (VNum amount) (spread t)))))%float,
                   Applied (VObj (set "index" (VNum (position i))
                                    (set "amount" (VNum amount) (spread t)))))).
Proof.
  destruct (validateTransaction t) as [message|[error|amount]] eqn:E.
  - left. exists message. now apply applyTransaction_throws.
  - right. left. exists error. now apply applyTransaction_invalid.
  - rewrite (applyTransaction_valid a i t amount E).
    destruct (hasType "Withdraw" t && (balance a <? amount)%float); [eauto|].
    right. right. exists amount. split; [reflexivity|].
    apply validateTransaction_Valid in E. destruct E as (Hc & _ & _).
    apply amountIsCoerced_inv in Hc. destruct Hc as ((properties & ->) & _ & _).
    unfold signedAmount, hasType, amountOf.
    rewrite get_type_applied, get_amount_applied. reflexivity.
Qed.

Lemma position_recorded r a i t a' :
  applyTransaction a i t = ret (a', r) -> get (transactionOf r) "index" = VNum (position i).
Proof.
  intros H.
  destruct (applyTransaction_cases a i t) as [(m & E)|[(reason & E)|(amount & _ & E)]];
    rewrite E in H; try discriminate; injection H as <- <-; simpl transactionOf;
    apply get_set_same.
Qed.

(** ** The loop *)

Lemma setBalance_same a : setBalance a (balance a) = a.
Proof. now destruct a. Qed.

Lemma forEach_results transactions : forall i p,
  forEach transactions i p
  = ({| current := accountAfter transactions i (current p);
        appliedSoFar := appliedSoFar p ++ appliedOf (results transactions i (current p));
        rejectedSoFar := rejectedSoFar p ++ rejectedOf (results transactions i (current p)) |},
     errorOf transactions i (current p)).
Proof.
  induction transactions as [|t rest IH]; intros i p; simpl.
  - rewrite !app_nil_r. now destruct p.
  - destruct (applyTransaction (current p) i t)
      as [message|[a' [transaction|reason transaction]]]; simpl.
    + rewrite !app_nil_r. now destruct p.
    + rewrite IH. unfold record. simpl. now rewrite <- ?app_assoc.
    + rewrite IH. unfold record. simpl. now rewrite <- ?app_assoc.
Qed.

(** The loop makes at most one call for each element, and one for each
    when no call throws. *)
Lemma results_length_le transactions : forall i a,
  (List.length (results transactions i a) <= List.length transactions)%nat.
Proof.
  induction transactions as [|t rest IH]; intros i a; simpl; [lia|].
  destruct (applyTransaction a i t) as [message|step]; simpl; [lia|].
  specialize (IH (S i) (fst step)). lia.
Qed.

Lemma results_length transactions : forall i a,
  errorOf transactions i a = None ->
  List.length (results transactions i a) = List.length transactions.
Proof.
  induction transactions as [|t rest IH]; intros i a; simpl; [reflexivity|].
  destruct (applyTransaction a i t) as [message|step]; simpl; [discriminate|].
  intros H. now rewrite IH.
Qed.

Lemma outcomes_length rs :
  (List.length (appliedOf rs) + List.length (rejectedOf rs) = List.length rs)%nat.
Proof.
  induction rs as [|[transaction|reason transaction] rest IH]; simpl; lia.
Qed.

(** The [k]-th result is what the call on the [k]-th element, at index
    [i + k], returned. *)
Lemma results_nth transactions : forall i a k r,
  nth_error (results transactions i a) k = Some r ->
  exists t before after,
    nth_error transactions k = Some t
    /\ applyTransaction before (i + k) t = ret (after, r).
Proof.
  induction transactions as [|t rest IH]; intros i a k r H.
  - destruct k; discriminate.
  - simpl in H. destruct (applyTransaction a i t) as [message|[a' r']] eqn:E.
    + destruct k; discriminate.
    + destruct k as [|k]; simpl in H.
      * injection H as <-. exists t, a, a'.
        rewrite Nat.add_0_r. split; [reflexivity|exact E].
      * apply IH in H. destruct H as (t' & before & after & Ht & Hr).
        exists t', before, after. split; [exact Ht|].
        now replace (i + S k)%nat with (S i + k)%nat by lia.
Qed.

(** The account after the loop: only its balance has moved, by the
    applied transactions in order. *)
Lemma accountAfter_running transactions : forall i a,
  accountAfter transactions i a
  = setBalance a (runningBalance (balance a) (appliedOf (results transactions i a))).
Proof.
  induction transactions as [|t rest IH]; intros i a; simpl.
  - symmetry. apply setBalance_same.
  - destruct (applyTransaction_cases a i t) as [(m & E)|[(reason & E)|(amount & _ & E)]];
      rewrite E; simpl.
    + symmetry. apply setBalance_same.
    + apply IH.
    + rewrite IH. reflexivity.
Qed.

Lemma rejectedOf_transactions rs entry :
  In entry (rejectedOf rs) ->
  exists reason transaction,
    entry = RejectedTransaction reason transaction /\ In (NotApplied reason transaction) rs.
Proof.
  induction rs as [|[transaction|reason transaction] rest IH]; simpl; intros H.
  - contradiction.
  - destruct (IH H) as (r & t & -> & Hin). eauto.
  - destruct H as [<-|H]; [eauto|].
    destruct (IH H) as (r & t & -> & Hin). eauto.
Qed.

(** ** The run *)

Lemma initialize_inr input opened transactions :
  initialize input = inr (opened, transactions) ->
  get input "transactions" = VArr transactions
  /\ toNumber (get input "initialBalance") = ret (Some (balance opened))
  /\ opened = {| accountNumber := get input "accountNumber";
                 accountHolder := get input "accountHolder";
                 currency := get input "currency";
                 initialBalance := balance opened;
                 balance := balance opened |}
  /\ firstFailure (structuralChecks input) = None.
Proof.
  unfold initialize, structuralChecks, fieldChecks, transactionsCheck, balanceCheck,
    bind, throwIf, throw, ret.
  simpl firstFailure.
  destruct (negb (ToBoolean input) || negb (String.eqb (typeof input) "object"));
    [discriminate|].
  destruct (negb (ToBoolean (get input "accountNumber"))); [discriminate|].
  destruct (negb (ToBoolean (get input "accountHolder"))); [discriminate|].
  destruct (isNullish (get input "initialBalance")); [discriminate|].
  destruct (negb (ToBoolean (get input "currency"))); [discriminate|].
  destruct (get input "transactions") as [| | | | |elements|]; simpl; try discriminate.
  destruct (toNumber (get input "initialBalance")) as [message|[x|]]; [discriminate| |].
  - intros [= <- <-]. simpl. auto.
  - destruct (ToString (get input "initialBalance")); discriminate.
Qed.

Lemma initialize_inl input message :
  initialize input = inl message -> firstFailure (structuralChecks input) = Some message.
Proof.
  unfold initialize, structuralChecks, fieldChecks, transactionsCheck, balanceCheck,
    bind, throwIf, throw, ret.
  simpl firstFailure.
  destruct (negb (ToBoolean input) || negb (String.eqb (typeof input) "object"));
    [congruence|].
  destruct (negb (ToBoolean (get input "accountNumber"))); [congruence|].
  destruct (negb (ToBoolean (get input "accountHolder"))); [congruence|].
  destruct (isNullish (get input "initialBalance")); [congruence|].
  destruct (negb (ToBoolean (get input "currency"))); [congruence|].
  destruct (negb (isArray (get input "transactions"))); [simpl; congruence|].
  destruct (toNumber (get input "initialBalance")) as [thrown|[x|]];
    [simpl; congruence|discriminate|].
  destruct (ToString (get input "initialBalance")); simpl; congruence.
Qed.

Lemma firstFailure_decides input :
  match firstFailure (structuralChecks input) with
  | Some message => initialize input = inl message
  | None => exists opened transactions, initialize input = inr (opened, transactions)
  end.
Proof.
  destruct (initialize input) as [message|[opened transactions]] eqn:E.
  - now rewrite (initialize_inl _ _ E).
  - apply initialize_inr in E as E'. destruct E' as (_ & _ & _ & ->). eauto.
Qed.

Lemma process_failed input message :
  initialize input = inl message ->
  processBankingTransaction input
  = {| account := None; applied := []; rejected := [SystemError message];
       logMessage := message; uncaught := None |}.
Proof. unfold processBankingTransaction. now intros ->. Qed.

Lemma reportAccount_setBalance a b : reportAccount (setBalance a b) = reportAccount a.
Proof. reflexivity. Qed.

(** A run that opens an account, read through the calls of the loop. *)
Lemma process_opened input opened transactions :
  initialize input = inr (opened, transactions) ->
  let rs := results transactions 0 opened in
  let error := errorOf transactions 0 opened in
  processBankingTransaction input
  = match reportAccount opened with
    | inl message =>
        {| account := Some (accountAfter transactions 0 opened);
           applied := appliedOf rs;
           rejected := caught (rejectedOf rs) error;
           logMessage := match error with Some caughtMessage => caughtMessage | None => "" end;
           uncaught := Some message |}
    | inr _ =>
        {| account := Some (accountAfter transactions 0 opened);
           applied := appliedOf rs;
           rejected := caught (rejectedOf rs) error;
           logMessage := "Completed: " ++ lengthText (appliedOf rs) ++ " applied, "
                         ++ lengthText (caught (rejectedOf rs) error) ++ " rejected.";
           uncaught := None |}
    end.
Proof.
  unfold processBankingTransaction. intros ->. rewrite forEach_results.
  cbn [current appliedSoFar rejectedSoFar app].
  rewrite accountAfter_running, reportAccount_setBalance. reflexivity.
Qed.

(** Whatever the report does, the account, the applied and the rejected
    entries of a run that opens an account are those of the loop. *)
Lemma process_opened_lists input opened transactions :
  initialize input = inr (opened, transactions) ->
  account (processBankingTransaction input) = Some (accountAfter transactions 0 opened)
  /\ applied (processBankingTransaction input) = appliedOf (results transactions 0 opened)
  /\ rejected (processBankingTransaction input)
     = caught (rejectedOf (results transactions 0 opened)) (errorOf transactions 0 opened).
Proof.
  intros H. rewrite (process_opened _ _ _ H).
  destruct (reportAccount opened); auto.
Qed.

(** ** More on the loop *)

Lemma results_app l1 l2 : forall i a,
  errorOf l1 i a = None ->
  results (l1 ++ l2) i a
  = (results l1 i a ++ results l2 (i + List.length l1) (accountAfter l1 i a))%list.
Proof.
  induction l1 as [|t rest IH]; intros i a; simpl.
  - now rewrite Nat.add_0_r.
  - destruct (applyTransaction a i t) as [message|step]; [discriminate|].
    intros H. rewrite IH by exact H.
    now replace (S i + List.length rest)%nat with (i + S (List.length rest))%nat by lia.
Qed.

(** An applied entry keeps the type of its transaction, Deposit or
    Withdraw, and carries the coerced amount, a number that is not
    [<= 0]. *)
Lemma applied_entry a i t a' t' :
  applyTransaction a i t = ret (a', Applied t') ->
  (hasType "Deposit" t' = true \/ hasType "Withdraw" t' = true)
  /\ exists amount,
       get t' "amount" = VNum amount
       /\ toNumber (get t "amount") = ret (Some amount)
       /\ (amount <=? 0)%float = false.
Proof.
  intros H.
  destruct (applyTransaction_cases a i t) as [(m & E)|[(reason & E)|(amount & V & E)]];
    rewrite E in H; try discriminate. injection H as _ <-.
  apply validateTransaction_Valid in V. destruct V as (Hc & Hn & Hpos).
  apply amountIsCoerced_inv in Hc. destruct Hc as ((properties & ->) & Ht & _).
  split.
  - unfold hasType. rewrite get_type_applied. simpl spread.
    destruct Ht as [-> | ->]; auto.
  - exists amount. rewrite get_amount_applied. auto.
Qed.

Lemma appliedOf_In rs t : In t (appliedOf rs) -> In (Applied t) rs.
Proof.
  induction rs as [|[transaction|reason transaction] rest IH]; simpl; intros H.
  - contradiction.
  - destruct H as [<-|H]; auto.
  - auto.
Qed.

(** ** Ending balance *)

(** C1, as stated, fails: from 9007199254740992 (2^53) two deposits of
    1 are both applied and each addition rounds back to 2^53, so the run
    ends at 9007199254740992, while the initial balance plus the sum of
    the deposits (2) is 9007199254740994. *)
Lemma ending_balance_differs_from_grouped_sum :
  let s := processBankingTransaction roundingCase in
  initialize roundingCase
  = ret (opening 9007199254740992,
         [request "Deposit" (VNum 1); request "Deposit" (VNum 1)])
  /\ option_map balance (account s) = Some 9007199254740992%float
  /\ List.length (applied s) = 2%nat
  /\ rejected s = []
  /\ uncaught s = None
  /\ spec_endingBalance 9007199254740992 (applied s) = 9007199254740994%float
  /\ 9007199254740992%float <> 9007199254740994%float.
Proof.
  repeat apply conj; try (vm_compute; reflexivity).
  intros H.
  apply (f_equal (fun x => (x =? 9007199254740992)%float)) in H.
  vm_compute in H. discriminate.
Qed.

(** C1, amended: in a structurally valid run the ending balance is the
    coerced initial balance to which the applied transactions were added
    one after the other in input order, the coerced amount of a Deposit
    and the negated coerced amount of a Withdraw, each addition in
    binary64 arithmetic. *)
Theorem ending_balance_is_running_balance input opened transactions :
  initialize input = ret (opened, transactions) ->
  let s := processBankingTransaction input in
  toNumber (get input "initialBalance") = ret (Some (initialBalance opened))
  /\ (forall t,
        In t (applied s) ->
        (hasType "Deposit" t = true \/ hasType "Withdraw" t = true)
        /\ exists amount,
             get t "amount" = VNum amount /\ (amount <=? 0)%float = false)
  /\ exists final,
       account s = Some final
       /\ balance final = runningBalance (initialBalance opened) (applied s).
Proof.
  intros H s. subst s.
  destruct (process_opened_lists _ _ _ H) as (-> & -> & _).
  apply initialize_inr in H. destruct H as (_ & Hn & Ho & _).
  assert (Hb : initialBalance opened = balance opened) by (rewrite Ho; reflexivity).
  rewrite Hb. split; [exact Hn|]. split.
  - intros t Hin. apply appliedOf_In, In_nth_error in Hin. destruct Hin as [k Hk].
    apply results_nth in Hk. destruct Hk as (t0 & before & after & _ & Hcall).
    destruct (applied_entry _ _ _ _ _ Hcall) as (Htype & amount & Ha & _ & Hpos).
    eauto.
  - eexists; split; [reflexivity|]. now rewrite accountAfter_running.
Qed.

Lemma ending_balance_is_running_balance_witness :
  exists opened transactions,
    initialize testCase1 = ret (opened, transactions)
    /\ exists final,
         account (processBankingTransaction testCase1) = Some final
         /\ balance final
            = runningBalance (initialBalance opened)
                (applied (processBankingTransaction testCase1)).
Proof.
  eexists. eexists. split.
  - vm_compute. reflexivity.
  - eapply (ending_balance_is_running_balance testCase1). vm_compute. reflexivity.
Defined.

(** ** Withdrawals and the running balance *)

(** C2, as stated, fails for amounts that are not positive.  At balance
    0 a Withdraw of 0 has an amount equal to the balance, and is
    rejected as not positive instead of being applied.  At balance -10 a
    Withdraw of -5 has an amount above the balance, and is rejected as
    not positive, not for insufficient balance. *)
Lemma withdraw_not_positive_is_not_checked_against_balance :
  initialize (descriptor (VNum 0) (VArr [request "Withdraw" (VNum 0)]))
  = ret (opening 0, [request "Withdraw" (VNum 0)])
  /\ toNumber (get (request "Withdraw" (VNum 0)) "amount") = ret (Some 0%float)
  /\ (0 =? balance (opening 0))%float = true
  /\ applyTransaction (opening 0) 0 (request "Withdraw" (VNum 0))
     = ret (opening 0,
            NotApplied "Amount must be positive: 0"
              (VObj [("type", VStr "Withdraw"); ("amount", VNum 0); ("index", VNum 1)]))
  /\ initialize (descriptor (VNum (-10)) (VArr [request "Withdraw" (VNum (-5))]))
     = ret (opening (-10), [request "Withdraw" (VNum (-5))])
  /\ toNumber (get (request "Withdraw" (VNum (-5))) "amount") = ret (Some (-5)%float)
  /\ (balance (opening (-10)) <? -5)%float = true
  /\ applyTransaction (opening (-10)) 0 (request "Withdraw" (VNum (-5)))
     = ret (opening (-10),
            NotApplied "Amount must be positive: -5"
              (VObj [("type", VStr "Withdraw"); ("amount", VNum (-5)); ("index", VNum 1)])).
Proof. repeat apply conj; vm_compute; reflexivity. Qed.

(** C2, amended: a Withdraw whose coerced amount is positive (not
    [<= 0]) and strictly exceeds the balance the account has when the
    transaction is evaluated is rejected with "Insufficient balance:
    required {amount}, available {current balance}" and the account is
    left as it is, whatever transactions come later; one whose positive
    amount equals that balance is applied and leaves the balance at 0.
    In a run the transaction is evaluated when no call before it
    throws. *)
Theorem withdraw_checked_against_running_balance t amount :
  amountIsCoerced t = true ->
  hasType "Withdraw" t = true ->
  toNumber (get t "amount") = ret (Some amount) ->
  (amount <=? 0)%float = false ->
  (forall a i,
      (balance a <? amount)%float = true ->
      applyTransaction a i t
      = ret (a, NotApplied (insufficient amount (balance a))
                  (VObj (set "index" (VNum (position i)) (spread t)))))
  /\ (forall a i,
        (amount =? balance a)%float = true ->
        applyTransaction a i t
        = ret (setBalance a 0,
               Applied (VObj (set "index" (VNum (position i))
                                (set "amount" (VNum amount) (spread t))))))
  /\ (forall earlier later opened,
        let a := accountAfter earlier 0 opened in
        (balance a <? amount)%float = true ->
        (errorOf earlier 0 opened = None ->
         nth_error (results (earlier ++ t :: later) 0 opened) (List.length earlier)
         = Some (NotApplied (insufficient amount (balance a))
                   (VObj (set "index" (VNum (position (List.length earlier))) (spread t)))))
        /\ accountAfter (earlier ++ [t]) 0 opened = a).
Proof.
  intros Hc Hw Hn Hpos.
  assert (V : validateTransaction t = ret (Valid amount)).
  { rewrite (validateTransaction_coerced _ Hc), Hn. simpl. rewrite Hpos. reflexivity. }
  assert (Hreject : forall a i,
             (balance a <? amount)%float = true ->
             applyTransaction a i t
             = ret (a, NotApplied (insufficient amount (balance a))
                         (VObj (set "index" (VNum (position i)) (spread t))))).
  { intros a i Hlt. rewrite (applyTransaction_valid _ _ _ _ V), Hw, Hlt. reflexivity. }
  split; [exact Hreject|]. split.
  - intros a i Heq.
    destruct (toNumber_finite _ _ Hn) as [Hfin _].
    destruct (positive_finite _ Hfin Hpos) as (m & e & Hsf).
    apply (eqb_finite_eq _ _ _ _ Hsf) in Heq.
    rewrite (applyTransaction_valid _ _ _ _ V), Hw.
    rewrite Heq, (ltb_irrefl_finite _ _ _ _ Hsf). simpl andb. cbv iota.
    assert (Hd : hasType "Deposit" t = false).
    { unfold hasType in *. destruct (get t "type"); try discriminate. simpl in *.
      apply String.eqb_eq in Hw. now subst. }
    rewrite Hd, (add_opp_finite _ _ _ Hsf). reflexivity.
  - intros earlier later opened a Hlt. split.
    + intros Hreach.
      rewrite results_app, nth_error_app2 by (rewrite ?results_length; auto; lia).
      rewrite results_length, Nat.sub_diag by exact Hreach. simpl.
      fold a. now rewrite (Hreject a _ Hlt).
    + change (earlier ++ [t])%list with (earlier ++ t :: [])%list.
      clear - Hreject Hlt. subst a. revert opened Hlt.
      generalize 0%nat.
      induction earlier as [|t0 rest IH]; intros i opened Hlt; simpl in *.
      * now rewrite (Hreject opened i Hlt).
      * destruct (applyTransaction opened i t0) as [message|step]; [reflexivity|].
        now apply IH.
Qed.

Lemma withdraw_checked_against_running_balance_witness :
  applyTransaction (setBalance (opening 2000) 2500) 1 (request "Withdraw" (VNum 3000))
  = ret ({| accountNumber := VStr "ACC100"; accountHolder := VStr "Ada Holder";
            currency := VStr "USD"; initialBalance := 2000; balance := 2500 |},
         NotApplied "Insufficient balance: required 3000, available 2500"
           (VObj [("type", VStr "Withdraw"); ("amount", VNum 3000); ("index", VNum 2)]))
  /\ applyTransaction (opening 3000) 0 (request "Withdraw" (VNum 3000))
     = ret ({| accountNumber := VStr "ACC100"; accountHolder := VStr "Ada Holder";
               currency := VStr "USD"; initialBalance := 3000; balance := 0 |},
            Applied (VObj [("type", VStr "Withdraw"); ("amount", VNum 3000);
                           ("index", VNum 1)]))
  /\ nth_error
       (results ([request "Deposit" (VNum 500)]
                 ++ request "Withdraw" (VNum 3000) :: [request "Deposit" (VNum 1)])
                0 (opening 2000)) 1
     = Some (NotApplied "Insufficient balance: required 3000, available 2500"
               (VObj [("type", VStr "Withdraw"); ("amount", VNum 3000); ("index", VNum 2)])).
Proof.
  pose proof (withdraw_checked_against_running_balance
                (request "Withdraw" (VNum 3000)) 3000
                eq_refl eq_refl eq_refl eq_refl) as (Hgt & Heq & Hrun).
  split; [|split].
  - exact (Hgt (setBalance (opening 2000) 2500) 1%nat eq_refl).
  - exact (Heq (opening 3000) 0%nat eq_refl).
  - exact (proj1 (Hrun [request "Deposit" (VNum 500)] [request "Deposit" (VNum 1)]
                    (opening 2000) eq_refl) eq_refl).
Defined.

(** ** Coercion *)

(** C3, as stated, fails: values that are neither numbers nor numeric
    strings are coerced too.  [true] becomes 1 (so a Deposit of [true]
    is applied, with amount 1), [null], the empty string and the empty
    array become 0, and the array [[5]] becomes 5. *)
Lemma values_other_than_numbers_are_coerced :
  toNumber (VBool true) = ret (Some 1%float)
  /\ toNumber (VBool false) = ret (Some 0%float)
  /\ toNumber VNull = ret (Some 0%float)
  /\ toNumber (VStr "") = ret (Some 0%float)
  /\ toNumber (VArr []) = ret (Some 0%float)
  /\ toNumber (VArr [VNum 5]) = ret (Some 5%float)
  /\ applyTransaction (opening 100) 0 (request "Deposit" (VBool true))
     = ret ({| accountNumber := VStr "ACC100"; accountHolder := VStr "Ada Holder";
               currency := VStr "USD"; initialBalance := 100; balance := 101 |},
            Applied (VObj [("type", VStr "Deposit"); ("amount", VNum 1); ("index", VNum 1)])).
Proof. repeat apply conj; vm_compute; reflexivity. Qed.

(** C3, amended: [toNumber] is the one coercion of both the initial
    balance and the amounts; when [Number] makes a number of a value, it
    accepts the value exactly when that number is finite, and returns
    it.  Finite numbers and numeric strings such as "250.75" are
    accepted; NaN, the infinities, [undefined], strings that are not
    numeric such as "invalid" and plain objects with no [toString]
    property of their own are refused; booleans, [null], empty or blank
    strings and arrays whose text is empty or numeric are accepted as
    well.  A transaction whose amount reaches the coercion and is
    refused is rejected with "Invalid amount: {raw value}". *)
Theorem toNumber_accepts_what_Number_makes_finite :
  (forall v n,
      Number v = ret n -> toNumber v = ret (if isFinite n then Some n else None))
  /\ (forall x, isFinite x = true -> toNumber (VNum x) = ret (Some x))
  /\ toNumber (VStr "250.75") = ret (Some 250.75%float)
  /\ (forall x, isFinite x = false -> toNumber (VNum x) = ret None)
  /\ toNumber (VNum nan) = ret None
  /\ toNumber (VNum infinity) = ret None
  /\ toNumber (VNum neg_infinity) = ret None
  /\ toNumber VUndefined = ret None
  /\ toNumber (VStr "invalid") = ret None
  /\ (forall properties,
        lookup "toString" properties = None -> toNumber (VObj properties) = ret None)
  /\ (forall b, toNumber (VBool b) = ret (Some (if b then 1 else 0)%float))
  /\ toNumber VNull = ret (Some 0%float)
  /\ toNumber (VStr "") = ret (Some 0%float)
  /\ toNumber (VStr "  ") = ret (Some 0%float)
  /\ toNumber (VArr []) = ret (Some 0%float)
  /\ toNumber (VArr [VStr "250.75"]) = ret (Some 250.75%float)
  /\ (forall t a i,
        amountIsCoerced t = true ->
        toNumber (get t "amount") = ret None ->
        exists raw,
          ToString (get t "amount") = ret raw
          /\ applyTransaction a i t
             = ret (a, NotApplied ("Invalid amount: " ++ raw)
                         (VObj (set "index" (VNum (position i)) (spread t)))))
  /\ (forall t amount,
        validateTransaction t = ret (Valid amount) ->
        toNumber (get t "amount") = ret (Some amount))
  /\ (forall input opened transactions,
        initialize input = ret (opened, transactions) ->
        toNumber (get input "initialBalance") = ret (Some (initialBalance opened))).
Proof.
  split; [intros v n H; rewrite toNumber_spec, H; reflexivity|].
  split; [intros x H; rewrite toNumber_spec; simpl; now rewrite H|].
  split; [vm_compute; reflexivity|].
  split; [intros x H; rewrite toNumber_spec; simpl; now rewrite H|].
  do 5 (split; [vm_compute; reflexivity|]).
  split.
  { intros properties H. unfold toNumber, Number. rewrite ToString_object, H.
    vm_compute. reflexivity. }
  split; [intros [|]; vm_compute; reflexivity|].
  do 5 (split; [vm_compute; reflexivity|]).
  split; [|split].
  - intros t a i Hc Hn. destruct (toNumber_returns _ _ Hn) as [raw Hraw].
    exists raw. split; [exact Hraw|]. apply applyTransaction_invalid.
    rewrite (validateTransaction_coerced _ Hc), Hn. simpl. now rewrite Hraw.
  - intros t amount V. now apply validateTransaction_Valid in V.
  - intros input opened transactions H. apply initialize_inr in H.
    destruct H as (_ & Hn & Ho & _). rewrite Ho. exact Hn.
Qed.

Lemma toNumber_accepts_what_Number_makes_finite_witness :
  toNumber (VNum 500) = ret (Some 500%float)
  /\ toNumber (VObj [("valueOf", VNum 5)]) = ret None
  /\ exists raw,
       ToString (get (request "Deposit" (VStr "invalid")) "amount") = ret raw
       /\ applyTransaction (opening 2500) 6 (request "Deposit" (VStr "invalid"))
          = ret (opening 2500,
                 NotApplied ("Invalid amount: " ++ raw)
                   (VObj [("type", VStr "Deposit"); ("amount", VStr "invalid");
                          ("index", VNum 7)])).
Proof.
  pose proof toNumber_accepts_what_Number_makes_finite
    as (_ & Hnum & _ & _ & _ & _ & _ & _ & _ & Hobj & _ & _ & _ & _ & _ & _ & Hrej & _).
  split; [|split].
  - exact (Hnum 500%float eq_refl).
  - exact (Hobj [("valueOf", VNum 5)] eq_refl).
  - exact (Hrej (request "Deposit" (VStr "invalid")) (opening 2500) 6%nat eq_refl eq_refl).
Defined.

(** ** Amounts that are not positive *)

Lemma applyTransaction_nonpositive t amount :
  toNumber (get t "amount") = ret (Some amount) ->
  (amount <=? 0)%float = true ->
  forall a i a' r,
    applyTransaction a i t = ret (a', r) ->
    a' = a
    /\ exists reason,
         r = NotApplied reason (VObj (set "index" (VNum (position i)) (spread t))).
Proof.
  intros Hn Hle a i a' r H.
  destruct (applyTransaction_cases a i t) as [(m & E)|[(reason & E)|(x & V & E)]];
    rewrite E in H.
  - discriminate.
  - injection H as <- <-. eauto.
  - destruct (validateTransaction_nonpositive _ _ x Hn Hle V).
Qed.

(** C4: a transaction whose amount coerces to a number [<= 0] (zero
    included) is never applied.  When the validation gets as far as
    coercing the amount, the call rejects it with "Amount must be
    positive: {amount}", under its 1-based position, and leaves the
    account as it is.  In every case a call that returns returns a
    rejection and the same account, and in a run the account after the
    transaction is the account before it, and the result recorded for
    it, if there is one, is a rejection; so it is not among the applied
    ones. *)
Theorem amount_not_positive_is_rejected t amount :
  toNumber (get t "amount") = ret (Some amount) ->
  (amount <=? 0)%float = true ->
  (amountIsCoerced t = true ->
   forall a i,
     applyTransaction a i t
     = ret (a, NotApplied ("Amount must be positive: " ++ Number_toString amount)
                 (VObj (set "index" (VNum (ofNat i + 1)%float) (spread t)))))
  /\ (forall a i a' r,
        applyTransaction a i t = ret (a', r) ->
        a' = a
        /\ exists reason,
             r = NotApplied reason (VObj (set "index" (VNum (ofNat i + 1)%float) (spread t))))
  /\ (forall earlier later opened,
        accountAfter (earlier ++ [t]) 0 opened = accountAfter earlier 0 opened
        /\ kept (earlier ++ [t]) 0 opened = kept earlier 0 opened
        /\ (forall r,
              nth_error (results (earlier ++ t :: later) 0 opened) (List.length earlier)
              = Some r ->
              exists reason,
                r = NotApplied reason
                      (VObj (set "index" (VNum (ofNat (List.length earlier) + 1)%float)
                               (spread t)))
                /\ (amountIsCoerced t = true ->
                    reason = "Amount must be positive: " ++ Number_toString amount))).
Proof.
  intros Hn Hle.
  assert (Hexact : amountIsCoerced t = true ->
                   forall a i,
                     applyTransaction a i t
                     = ret (a, NotApplied ("Amount must be positive: " ++ Number_toString amount)
                                 (VObj (set "index" (VNum (position i)) (spread t))))).
  { intros Hc a i. apply applyTransaction_invalid.
    rewrite (validateTransaction_coerced _ Hc), Hn. simpl. now rewrite Hle. }
  pose proof (applyTransaction_nonpositive _ _ Hn Hle) as Hstep.
  split; [exact Hexact|]. split; [exact Hstep|].
  intros earlier later opened. split; [|split].
  - generalize 0%nat. revert opened.
    induction earlier as [|t0 rest IH]; intros opened i; simpl.
    + destruct (applyTransaction opened i t) as [message|[a' r]] eqn:E; [reflexivity|].
      simpl. now destruct (Hstep _ _ _ _ E) as [-> _].
    + destruct (applyTransaction opened i t0) as [message|step]; [reflexivity|]. apply IH.
  - generalize 0%nat. revert opened.
    induction earlier as [|t0 rest IH]; intros opened i; simpl.
    + destruct (applyTransaction opened i t) as [message|[a' r]] eqn:E; [reflexivity|].
      simpl. now destruct (Hstep _ _ _ _ E) as [_ [reason ->]].
    + destruct (applyTransaction opened i t0) as [message|[a' [t'|reason t']]]; simpl;
        [reflexivity|f_equal|]; apply IH.
  - intros r Hr. apply results_nth in Hr.
    destruct Hr as (t' & before & after & Ht & Hcall).
    rewrite nth_error_app2, Nat.sub_diag in Ht by lia. injection Ht as <-.
    simpl in Hcall.
    destruct (Hstep _ _ _ _ Hcall) as [_ [reason ->]].
    exists reason. split; [reflexivity|].
    intros Hc. rewrite (Hexact Hc) in Hcall. now injection Hcall.
Qed.

Lemma amount_not_positive_is_rejected_witness :
  applyTransaction (opening 2500) 2 (request "Deposit" (VNum (-100)))
  = ret ({| accountNumber := VStr "ACC100"; accountHolder := VStr "Ada Holder";
            currency := VStr "USD"; initialBalance := 2500; balance := 2500 |},
         NotApplied "Amount must be positive: -100"
           (VObj [("type", VStr "Deposit"); ("amount", VNum (-100)); ("index", VNum 3)]))
  /\ applyTransaction (opening 2500) 1 (request "Withdraw" (VNum 0))
     = ret (opening 2500,
            NotApplied "Amount must be positive: 0"
              (VObj [("type", VStr "Withdraw"); ("amount", VNum 0); ("index", VNum 2)])).
Proof.
  split.
  - exact (proj1 (amount_not_positive_is_rejected
                    (request "Deposit" (VNum (-100))) (-100) eq_refl eq_refl)
             eq_refl (opening 2500) 2%nat).
  - exact (proj1 (amount_not_positive_is_rejected
                    (request "Withdraw" (VNum 0)) 0 eq_refl eq_refl)
             eq_refl (opening 2500) 1%nat).
Defined.

(** ** Structural checks *)

(** C5, as stated, fails: with an initial balance that cannot be
    coerced and transactions that are not an array, the order of the
    specification reports the initial balance, and the program reports
    the transactions. *)
Lemma transactions_are_checked_before_the_balance :
  toNumber (get crossedCase "initialBalance") = ret None
  /\ isArray (get crossedCase "transactions") = false
  /\ firstFailure (spec_structuralChecks crossedCase) = Some "Invalid initial balance: abc"
  /\ processBankingTransaction crossedCase
     = {| account := None; applied := [];
          rejected := [SystemError "Transactions must be an array"];
          logMessage := "Transactions must be an array";
          uncaught := None |}.
Proof. repeat apply conj; vm_compute; reflexivity. Qed.

(** C5, amended: the structural checks fail fast in the order (1) the
    input is an object and its account number, account holder, initial
    balance and currency are present, (2) the transactions are an array,
    (3) the initial balance coerces to a finite number; the first
    failing check decides the one error that is reported, and when none
    fails the account is opened.  For an input whose fields are present
    and whose transactions are not an array, the error reported is
    "Transactions must be an array", also when the initial balance
    cannot be coerced. *)
Theorem first_failing_check_is_reported input :
  (forall message,
      firstFailure (structuralChecks input) = Some message ->
      initialize input = throw message
      /\ rejected (processBankingTransaction input) = [SystemError message])
  /\ (firstFailure (structuralChecks input) = None ->
      exists opened transactions, initialize input = ret (opened, transactions))
  /\ (firstFailure (fieldChecks input) = None ->
      isArray (get input "transactions") = false ->
      rejected (processBankingTransaction input)
      = [SystemError "Transactions must be an array"])
  /\ (firstFailure (fieldChecks input) = None ->
      isArray (get input "transactions") = true ->
      forall raw,
        toNumber (get input "initialBalance") = ret None ->
        ToString (get input "initialBalance") = ret raw ->
        rejected (processBankingTransaction input)
        = [SystemError ("Invalid initial balance: " ++ raw)]).
Proof.
  pose proof (firstFailure_decides input) as D.
  assert (Hfields : forall rest,
             firstFailure (fieldChecks input) = None ->
             firstFailure (fieldChecks input ++ rest) = firstFailure rest).
  { intros rest. unfold fieldChecks. simpl.
    destruct (negb (ToBoolean input) || negb (String.eqb (typeof input) "object"));
      [discriminate|].
    destruct (negb (ToBoolean (get input "accountNumber"))); [discriminate|].
    destruct (negb (ToBoolean (get input "accountHolder"))); [discriminate|].
    destruct (isNullish (get input "initialBalance")); [discriminate|].
    destruct (negb (ToBoolean (get input "currency"))); [discriminate|].
    reflexivity. }
  split; [|split; [|split]].
  - intros message H. rewrite H in D. split; [exact D|].
    now rewrite (process_failed _ _ D).
  - intros H. now rewrite H in D.
  - intros Hf Ha.
    assert (H : firstFailure (structuralChecks input)
                = Some "Transactions must be an array").
    { unfold structuralChecks. rewrite (Hfields _ Hf).
      unfold transactionsCheck. simpl. now rewrite Ha. }
    rewrite H in D. now rewrite (process_failed _ _ D).
  - intros Hf Ha raw Hn Hraw.
    assert (H : firstFailure (structuralChecks input)
                = Some ("Invalid initial balance: " ++ raw)).
    { unfold structuralChecks. rewrite (Hfields _ Hf).
      unfold transactionsCheck, balanceCheck. simpl. now rewrite Ha, Hn, Hraw. }
    rewrite H in D. now rewrite (process_failed _ _ D).
Qed.

Lemma first_failing_check_is_reported_witness :
  rejected (processBankingTransaction (descriptor VUndefined (VStr "none")))
  = [SystemError "Missing initial balance"]
  /\ rejected (processBankingTransaction crossedCase)
     = [SystemError "Transactions must be an array"]
  /\ rejected (processBankingTransaction (descriptor (VStr "abc") (VArr [])))
     = [SystemError "Invalid initial balance: abc"].
Proof.
  split; [|split].
  - exact (proj2 (proj1 (first_failing_check_is_reported
                           (descriptor VUndefined (VStr "none"))) _ eq_refl)).
  - exact (proj1 (proj2 (proj2 (first_failing_check_is_reported crossedCase)))
             eq_refl eq_refl).
  - exact (proj2 (proj2 (proj2 (first_failing_check_is_reported
                                  (descriptor (VStr "abc") (VArr [])))))
             eq_refl eq_refl "abc" eq_refl eq_refl).
Defined.

(** An input is refused when a field is missing, the initial balance is
    not coerced to a finite number or the transactions are not an
    array. *)
Lemma refused_input_fails_a_check input :
  ToBoolean (get input "accountNumber") = false
  \/ ToBoolean (get input "accountHolder") = false
  \/ isNullish (get input "initialBalance") = true
  \/ ToBoolean (get input "currency") = false
  \/ (forall x, toNumber (get input "initialBalance") <> ret (Some x))
  \/ isArray (get input "transactions") = false ->
  exists message, initialize input = throw message.
Proof.
  intros H.
  destruct (initialize input) as [message|[opened transactions]] eqn:E; [eauto|].
  exfalso. revert E.
  unfold initialize, bind, throwIf, throw, ret.
  destruct (negb (ToBoolean input) || negb (String.eqb (typeof input) "object"));
    [discriminate|].
  destruct (ToBoolean (get input "accountNumber")); simpl; [|discriminate].
  destruct (ToBoolean (get input "accountHolder")); simpl; [|discriminate].
  destruct (isNullish (get input "initialBalance")); simpl; [discriminate|].
  destruct (ToBoolean (get input "currency")); simpl; [|discriminate].
  destruct (isArray (get input "transactions")); simpl; [|discriminate].
  destruct (toNumber (get input "initialBalance")) as [thrown|[x|]]; [discriminate| |].
  - intros _. destruct H as [H|[H|[H|[H|[H|H]]]]]; try discriminate.
    now apply (H x).
  - destruct (ToString (get input "initialBalance")); discriminate.
Qed.

Lemma refused_input_has_a_cause input message :
  initialize input = throw message ->
  ToBoolean (get input "accountNumber") = false
  \/ ToBoolean (get input "accountHolder") = false
  \/ isNullish (get input "initialBalance") = true
  \/ ToBoolean (get input "currency") = false
  \/ (forall x, toNumber (get input "initialBalance") <> ret (Some x))
  \/ isArray (get input "transactions") = false.
Proof.
  destruct (ToBoolean (get input "accountNumber")) eqn:E1; [|auto].
  destruct (ToBoolean (get input "accountHolder")) eqn:E2; [|auto].
  destruct (isNullish (get input "initialBalance")) eqn:E3; [auto|].
  destruct (ToBoolean (get input "currency")) eqn:E4; [|auto].
  destruct (toNumber (get input "initialBalance")) as [thrown|[x|]] eqn:E5;
    [intros _; do 4 right; left; intros x; discriminate| |
     intros _; do 4 right; left; intros x; discriminate].
  destruct (isArray (get input "transactions")) eqn:E6; [|auto 7].
  destruct (truthy_get_object _ _ E1) as [properties ->].
  unfold initialize, bind, throwIf, throw, ret.
  rewrite E1, E2, E3, E4, E5, E6. discriminate.
Qed.

(** C6: the inputs that fail structural validation are those whose
    account number, account holder, initial balance or currency is
    missing, whose initial balance is not coerced to a finite number, or
    whose transactions are not an array.  For each of them no account is
    opened and no transaction is run: [account] stays [null], [applied]
    is empty and [rejected] holds one entry, the system error with the
    message of the first failing check, which has no transaction and no
    position; the function ends without an error. *)
Theorem structural_failure_halts_the_run input :
  (ToBoolean (get input "accountNumber") = false
   \/ ToBoolean (get input "accountHolder") = false
   \/ isNullish (get input "initialBalance") = true
   \/ ToBoolean (get input "currency") = false
   \/ (forall x, toNumber (get input "initialBalance") <> ret (Some x))
   \/ isArray (get input "transactions") = false
   <-> exists message, initialize input = throw message)
  /\ (forall message,
        initialize input = throw message ->
        firstFailure (structuralChecks input) = Some message
        /\ processBankingTransaction input
           = {| account := None; applied := []; rejected := [SystemError message];
                logMessage := message; uncaught := None |}).
Proof.
  split; [split|].
  - apply refused_input_fails_a_check.
  - intros [message E]. exact (refused_input_has_a_cause _ _ E).
  - intros message E. split.
    + now apply initialize_inl.
    + now apply process_failed.
Qed.

Lemma structural_failure_halts_the_run_witness :
  processBankingTransaction (VObj [("accountNumber", VStr "ACC001")])
  = {| account := None; applied := [];
       rejected := [SystemError "Missing account holder"];
       logMessage := "Missing account holder"; uncaught := None |}
  /\ processBankingTransaction (descriptor (VStr "abc") (VArr [request "Deposit" (VNum 1)]))
     = {| account := None; applied := [];
          rejected := [SystemError "Invalid initial balance: abc"];
          logMessage := "Invalid initial balance: abc"; uncaught := None |}.
Proof.
  split.
  - exact (proj2 (proj2 (structural_failure_halts_the_run
                           (VObj [("accountNumber", VStr "ACC001")])) _ eq_refl)).
  - exact (proj2 (proj2 (structural_failure_halts_the_run
                           (descriptor (VStr "abc") (VArr [request "Deposit" (VNum 1)])))
                    _ eq_refl)).
Defined.

(** ** One outcome for each transaction *)

(** C7 fails on the program: a transaction whose amount is an object
    with a [toString] property of its own makes the coercion of line 41
    throw, the [catch] block records one system error, and the loop
    stops.  Of the three deposits of this run the first is applied, the
    second leaves a system error with no position, and the third has no
    outcome: 1 applied and 1 rejected for 3 elements.  With the amount
    [{}] in the same place every element has its outcome. *)
Theorem thrown_error_ends_the_loop :
  let thrower := VObj [("toString", VStr "x")] in
  initialize throwingCase
  = ret (opening 10,
         [request "Deposit" (VNum 1); request "Deposit" thrower; request "Deposit" (VNum 1)])
  /\ applyTransaction (setBalance (opening 10) 11) 1 (request "Deposit" thrower)
     = throw "Cannot convert object to primitive value"
  /\ processBankingTransaction throwingCase
     = {| account := Some {| accountNumber := VStr "ACC100";
                             accountHolder := VStr "Ada Holder";
                             currency := VStr "USD";
                             initialBalance := 10; balance := 11 |};
          applied :=
            [VObj [("type", VStr "Deposit"); ("amount", VNum 1); ("index", VNum 1)]];
          rejected := [SystemError "Cannot convert object to primitive value"];
          logMessage := "Completed: 1 applied, 1 rejected.";
          uncaught := None |}
  /\ (List.length (applied (processBankingTransaction throwingCase))
      + List.length (rejected (processBankingTransaction throwingCase)))%nat = 2%nat
  /\ processBankingTransaction
       (descriptor (VNum 10)
          (VArr [request "Deposit" (VNum 1); request "Deposit" (VObj []);
                 request "Deposit" (VNum 1)]))
     = {| account := Some {| accountNumber := VStr "ACC100";
                             accountHolder := VStr "Ada Holder";
                             currency := VStr "USD";
                             initialBalance := 10; balance := 12 |};
          applied :=
            [VObj [("type", VStr "Deposit"); ("amount", VNum 1); ("index", VNum 1)];
             VObj [("type", VStr "Deposit"); ("amount", VNum 1); ("index", VNum 3)]];
          rejected :=
            [RejectedTransaction "Invalid amount: [object Object]"
               (VObj [("type", VStr "Deposit"); ("amount", VObj []); ("index", VNum 2)])];
          logMessage := "Completed: 2 applied, 1 rejected.";
          uncaught := None |}.
Proof. repeat apply conj; vm_compute; reflexivity. Qed.

(** ** Frame of the balance *)

(** C8: the account is opened with its balance equal to the coerced
    initial balance.  A call that rejects leaves the whole account as it
    is; a call that applies adds the signed amount of the transaction it
    records to the balance and leaves every other field as it is.  So
    after the run the balance is the opening balance moved once for each
    applied transaction, in input order, and every other field, the
    stored initial balance included, is as it was. *)
Theorem balance_changes_only_when_applied input opened transactions :
  initialize input = ret (opened, transactions) ->
  let s := processBankingTransaction input in
  toNumber (get input "initialBalance") = ret (Some (balance opened))
  /\ initialBalance opened = balance opened
  /\ (forall a i t a' reason transaction,
        applyTransaction a i t = ret (a', NotApplied reason transaction) -> a' = a)
  /\ (forall a i t a' transaction,
        applyTransaction a i t = ret (a', Applied transaction) ->
        balance a' = (balance a + signedAmount transaction)%float
        /\ accountNumber a' = accountNumber a
        /\ accountHolder a' = accountHolder a
        /\ currency a' = currency a
        /\ initialBalance a' = initialBalance a)
  /\ exists final,
       account s = Some final
       /\ balance final = runningBalance (balance opened) (applied s)
       /\ accountNumber final = accountNumber opened
       /\ accountHolder final = accountHolder opened
       /\ currency final = currency opened
       /\ initialBalance final = initialBalance opened.
Proof.
  intros H s. subst s.
  destruct (process_opened_lists _ _ _ H) as (-> & -> & _).
  apply initialize_inr in H. destruct H as (_ & Hn & Ho & _).
  split; [exact Hn|]. split; [rewrite Ho; reflexivity|]. split; [|split].
  - intros a i t a' reason transaction E.
    destruct (applyTransaction_cases a i t) as [(m & E')|[(r & E')|(amount & _ & E')]];
      rewrite E' in E; try discriminate. now injection E as <- _ _.
  - intros a i t a' transaction E.
    destruct (applyTransaction_cases a i t) as [(m & E')|[(r & E')|(amount & _ & E')]];
      rewrite E' in E; try discriminate. injection E as <- <-. simpl. auto.
  - eexists. split; [reflexivity|]. rewrite accountAfter_running. simpl. auto.
Qed.

Lemma balance_changes_only_when_applied_witness :
  toNumber (get testCase2 "initialBalance") = ret (Some 2000%float)
  /\ exists final,
       account (processBankingTransaction testCase2) = Some final
       /\ balance final = 2500%float
       /\ accountNumber final = VStr "ACC002"
       /\ accountHolder final = VStr "Jane Smith"
       /\ currency final = VStr "EUR"
       /\ initialBalance final = 2000%float.
Proof.
  pose proof (balance_changes_only_when_applied testCase2 _ _ eq_refl)
    as (Hn & _ & _ & _ & final & Hfinal).
  split; [exact Hn|]. exists final. exact Hfinal.
Defined.

(** ** Missing and unknown types *)

(** C10: a transaction object whose [type] is present but falsy (the
    empty string, 0, [false], ...) is rejected with "Missing transaction
    type"; "Unknown transaction type: {value}" is the reason only when
    the type is truthy and is neither "Deposit" nor "Withdraw", and it
    is the reason for such a type whenever the type has a text. *)
Theorem falsy_type_is_missing_type properties type :
  lookup "type" properties = Some type ->
  (ToBoolean type = false ->
   validateTransaction (VObj properties) = ret (Invalid "Missing transaction type")
   /\ forall a i,
        applyTransaction a i (VObj properties)
        = ret (a, NotApplied "Missing transaction type"
                    (VObj (set "index" (VNum (ofNat i + 1)%float) properties))))
  /\ (forall text,
        validateTransaction (VObj properties)
        = ret (Invalid ("Unknown transaction type: " ++ text)) ->
        ToBoolean type = true
        /\ type <> VStr "Deposit" /\ type <> VStr "Withdraw"
        /\ ToString type = ret text)
  /\ (ToBoolean type = true ->
      type <> VStr "Deposit" -> type <> VStr "Withdraw" ->
      forall text,
        ToString type = ret text ->
        validateTransaction (VObj properties)
        = ret (Invalid ("Unknown transaction type: " ++ text))).
Proof.
  intros Hl.
  assert (Hg : get (VObj properties) "type" = type) by (simpl; now rewrite Hl).
  assert (Hknown : isTransactionType type = false ->
                   type <> VStr "Deposit" /\ type <> VStr "Withdraw").
  { intros Hf. split; intros ->; discriminate. }
  split; [|split].
  - intros Hfalsy.
    assert (V : validateTransaction (VObj properties)
                = ret (Invalid "Missing transaction type")).
    { unfold validateTransaction. rewrite Hg, Hfalsy. reflexivity. }
    split; [exact V|]. intros a i. now rewrite (applyTransaction_invalid _ _ _ _ V).
  - intros text. unfold validateTransaction. rewrite Hg.
    simpl ToBoolean at 1. simpl typeof. simpl negb at 1. simpl orb. cbv iota.
    destruct (ToBoolean type); simpl negb; cbv iota; [|discriminate].
    destruct (isTransactionType type) eqn:Ht; simpl negb; cbv iota.
    + destruct (isNullish (get (VObj properties) "amount")); [discriminate|].
      unfold bind, ret.
      destruct (toNumber (get (VObj properties) "amount")) as [m|[x|]]; [discriminate| |].
      * destruct (x <=? 0)%float; discriminate.
      * destruct (ToString (get (VObj properties) "amount")); discriminate.
    + unfold bind, ret. destruct (ToString type) as [m|raw]; [discriminate|].
      intros E. destruct (Hknown eq_refl) as [Hd Hw].
      assert (raw = text) as -> by (simpl in E; congruence).
      repeat apply conj; auto.
  - intros Htruthy Hd Hw text Htext. unfold validateTransaction. rewrite Hg, Htruthy.
    simpl ToBoolean. simpl typeof. simpl negb. simpl orb. cbv iota.
    destruct (isTransactionType type) eqn:Ht.
    + apply isTransactionType_inv in Ht. destruct Ht; contradiction.
    + simpl negb. cbv iota. now rewrite Htext.
Qed.

Lemma falsy_type_is_missing_type_witness :
  validateTransaction (VObj [("type", VStr ""); ("amount", VNum 50)])
  = ret (Invalid "Missing transaction type")
  /\ validateTransaction (VObj [("type", VNum 0); ("amount", VNum 50)])
     = ret (Invalid "Missing transaction type")
  /\ applyTransaction (opening 5) 4 (VObj [("type", VBool false); ("amount", VNum 50)])
     = ret (opening 5,
            NotApplied "Missing transaction type"
              (VObj [("type", VBool false); ("amount", VNum 50); ("index", VNum 5)]))
  /\ validateTransaction (VObj [("type", VStr "Unknown"); ("amount", VNum 50)])
     = ret (Invalid "Unknown transaction type: Unknown").
Proof.
  repeat apply conj.
  - exact (proj1 (proj1 (falsy_type_is_missing_type
                           [("type", VStr ""); ("amount", VNum 50)] _ eq_refl) eq_refl)).
  - exact (proj1 (proj1 (falsy_type_is_missing_type
                           [("type", VNum 0); ("amount", VNum 50)] _ eq_refl) eq_refl)).
  - exact (proj2 (proj1 (falsy_type_is_missing_type
                           [("type", VBool false); ("amount", VNum 50)] _ eq_refl) eq_refl)
             (opening 5) 4%nat).
  - refine (proj2 (proj2 (falsy_type_is_missing_type
                            [("type", VStr "Unknown"); ("amount", VNum 50)] _ eq_refl))
              eq_refl _ _ "Unknown" eq_refl); discriminate.
Defined.

(** ** Scenario C *)

(** C9: in Scenario C (initial balance "500.50"; Deposit "250.75",
    Withdraw 0, Withdraw 750.25) the account opens at 500.5, the deposit
    is applied and brings the balance to 751.25, Withdraw 0 is rejected
    as not positive and leaves 751.25, Withdraw 750.25 is applied and
    leaves 1; the run ends with 2 applied, 1 rejected and balance 1. *)
Theorem scenario_C :
  let holding b :=
    {| accountNumber := VStr "ACC003"; accountHolder := VStr "Bob Johnson";
       currency := VStr "GBP"; initialBalance := 500.5; balance := b |} in
  let deposit := request "Deposit" (VStr "250.75") in
  let withdraw0 := request "Withdraw" (VNum 0) in
  let withdraw := request "Withdraw" (VNum 750.25) in
  initialize testCase3 = ret (holding 500.5%float, [deposit; withdraw0; withdraw])
  /\ applyTransaction (holding 500.5%float) 0 deposit
     = ret (holding 751.25%float,
            Applied (VObj [("type", VStr "Deposit"); ("amount", VNum 250.75);
                           ("index", VNum 1)]))
  /\ applyTransaction (holding 751.25%float) 1 withdraw0
     = ret (holding 751.25%float,
            NotApplied "Amount must be positive: 0"
              (VObj [("type", VStr "Withdraw"); ("amount", VNum 0); ("index", VNum 2)]))
  /\ applyTransaction (holding 751.25%float) 2 withdraw
     = ret (holding 1%float,
            Applied (VObj [("type", VStr "Withdraw"); ("amount", VNum 750.25);
                           ("index", VNum 3)]))
  /\ processBankingTransaction testCase3
     = {| account := Some (holding 1%float);
          applied :=
            [VObj [("type", VStr "Deposit"); ("amount", VNum 250.75); ("index", VNum 1)];
             VObj [("type", VStr "Withdraw"); ("amount", VNum 750.25); ("index", VNum 3)]];
          rejected :=
            [RejectedTransaction "Amount must be positive: 0"
               (VObj [("type", VStr "Withdraw"); ("amount", VNum 0); ("index", VNum 2)])];
          logMessage := "Completed: 2 applied, 1 rejected.";
          uncaught := None |}.
Proof. repeat apply conj; vm_compute; reflexivity. Qed.

(** ** Rounding keeps the sign *)

Lemma leb_zero_notNegative b :
  (0 <=? b)%float = notNegative (Prim2SF b).
Proof.
  rewrite leb_spec, Prim2SF_zero.
  destruct (Prim2SF b) as [s|s| |s m e]; try reflexivity; now destruct s.
Qed.

Lemma shr_1_nonneg mrs : 0 <= shr_m mrs -> 0 <= shr_m (shr_1 mrs).
Proof.
  destruct mrs as [m r s]. simpl.
  destruct m as [|p|p]; simpl; try lia; destruct p; simpl; lia.
Qed.

Lemma iter_shr_1_nonneg p : forall mrs,
  0 <= shr_m mrs -> 0 <= shr_m (iter_pos shr_1 p mrs).
Proof.
  induction p as [p IH|p IH|]; intros mrs H; simpl.
  - apply IH, IH, shr_1_nonneg, H.
  - apply IH, IH, H.
  - apply shr_1_nonneg, H.
Qed.

Lemma shr_fexp_nonneg prec emax m e l :
  0 <= m -> 0 <= shr_m (fst (shr_fexp prec emax m e l)).
Proof.
  intros H. unfold shr_fexp, shr.
  assert (H0 : 0 <= shr_m (shr_record_of_loc m l)).
  { destruct l as [|[| |]]; exact H. }
  destruct (fexp prec emax (Zdigits2 m + e) - e); simpl; auto.
  now apply iter_shr_1_nonneg.
Qed.

Lemma round_nearest_even_nonneg m l : 0 <= m -> 0 <= round_nearest_even m l.
Proof.
  intros H. destruct l as [|[| |]]; simpl; try lia.
  destruct (Z.even m); lia.
Qed.

Lemma binary_round_aux_notNegative prec emax m e l :
  0 <= m -> notNegative (binary_round_aux prec emax false m e l) = true.
Proof.
  intros H. unfold binary_round_aux.
  pose proof (shr_fexp_nonneg prec emax m e l H) as H1.
  destruct (shr_fexp prec emax m e l) as [mrs' e']. simpl in H1.
  pose proof (shr_fexp_nonneg prec emax _ e' loc_Exact
                (round_nearest_even_nonneg _ (loc_of_shr_record mrs') H1)) as H2.
  destruct (shr_fexp prec emax (round_nearest_even (shr_m mrs') (loc_of_shr_record mrs'))
              e' loc_Exact) as [mrs'' e'']. simpl in H2.
  destruct (shr_m mrs'') as [|p|p]; [reflexivity| |lia].
  now destruct (e'' <=? emax - prec).
Qed.

Lemma binary_normalize_notNegative prec emax z e :
  0 <= z -> notNegative (binary_normalize prec emax z e false) = true.
Proof.
  intros H. destruct z as [|p|p]; [reflexivity| |lia].
  simpl. unfold binary_round.
  destruct (shl_align p e (fexp prec emax (Z.pos (digits2_pos p) + e))) as [mz ez].
  now apply binary_round_aux_notNegative.
Qed.

(** ** Aligned mantissas *)

Lemma iter_xO_pow m d : Z.pos (Pos.iter xO m d) = Z.pos m * 2 ^ Z.pos d.
Proof.
  induction d as [|d IH] using Pos.peano_ind.
  - simpl. lia.
  - rewrite Pos.iter_succ, Pos2Z.inj_succ, Z.pow_succ_r by lia.
    rewrite (Pos2Z.inj_xO (Pos.iter xO m d)), IH. ring.
Qed.

Lemma shl_align_value m e e' :
  e' <= e -> Z.pos (fst (shl_align m e e')) = Z.pos m * 2 ^ (e - e').
Proof.
  intros H. unfold shl_align.
  destruct (e' - e) as [|d|d] eqn:E; simpl.
  - replace (e - e') with 0 by lia. simpl. lia.
  - lia.
  - rewrite iter_xO_pow. replace (e - e') with (Z.pos d) by lia. reflexivity.
Qed.

Lemma digits2_size p : digits2_pos p = Pos.size p.
Proof. induction p; simpl; congruence. Qed.

Lemma digits2_bounds p :
  2 ^ (Z.pos (digits2_pos p) - 1) <= Z.pos p < 2 ^ Z.pos (digits2_pos p).
Proof.
  rewrite digits2_size. split.
  - pose proof (Pos.size_le p) as H.
    apply Pos2Z.pos_le_pos in H. rewrite Pos2Z.inj_pow, (Pos2Z.inj_xO p) in H.
    replace (Z.pos (Pos.size p)) with (Z.succ (Z.pos (Pos.size p) - 1)) in H by lia.
    rewrite Z.pow_succ_r in H by lia. lia.
  - pose proof (Pos.size_gt p) as H.
    apply Pos2Z.pos_lt_pos in H. now rewrite Pos2Z.inj_pow in H.
Qed.

(** Of two positive binary64 numbers the one that is not the smaller has
    the aligned mantissa that is not the smaller. *)
Lemma aligned_mantissas_ordered mb eb ma ea :
  valid_binary (S754_finite false mb eb) = true ->
  valid_binary (S754_finite false ma ea) = true ->
  SFltb (S754_finite false mb eb) (S754_finite false ma ea) = false ->
  Z.pos (fst (shl_align ma ea (Z.min eb ea)))
  <= Z.pos (fst (shl_align mb eb (Z.min eb ea))).
Proof.
  unfold SpecFloat.valid_binary, bounded, canonical_mantissa, fexp, SpecFloat.emin.
  rewrite !andb_true_iff, !Z.eqb_eq, !Z.leb_le. intros [Hb _] [Ha _].
  unfold SFltb. simpl.
  rewrite !shl_align_value by lia.
  destruct (Z.compare_spec eb ea) as [->|Hlt|Hgt]; [|discriminate|].
  - rewrite Z.min_id, Z.sub_diag, Z.pow_0_r.
    destruct (Pos.compare_cont Eq mb ma) eqn:E; try discriminate; intros _;
      change (Pos.compare_cont Eq mb ma) with (Pos.compare mb ma) in E.
    + apply Pos.compare_eq in E. subst. lia.
    + apply Pos.compare_gt_iff in E. lia.
  - intros _. rewrite Z.min_r by lia. rewrite Z.sub_diag, Z.pow_0_r.
    pose proof (digits2_bounds mb) as [Hmb _].
    pose proof (digits2_bounds ma) as [_ Hma].
    assert (Hdb : Z.pos (digits2_pos mb) = prec) by (unfold prec, emax in *; lia).
    assert (Hda : Z.pos (digits2_pos ma) <= prec) by (unfold prec, emax in *; lia).
    rewrite Hdb in Hmb.
    assert (H2 : 2 ^ 1 <= 2 ^ (eb - ea)) by (apply Z.pow_le_mono_r; lia).
    assert (H3 : 2 ^ Z.pos (digits2_pos ma) <= 2 ^ prec)
      by (apply Z.pow_le_mono_r; lia).
    assert (H4 : 2 ^ prec = 2 ^ (prec - 1) * 2 ^ 1)
      by (rewrite <- Z.pow_add_r by (unfold prec; lia); f_equal).
    nia.
Qed.

(** ** Sums that stay above zero *)

Lemma leb_zero_cases b :
  (0 <=? b)%float = true ->
  (exists s, Prim2SF b = S754_zero s)
  \/ Prim2SF b = S754_infinity false
  \/ exists m e, Prim2SF b = S754_finite false m e.
Proof.
  rewrite leb_zero_notNegative.
  destruct (Prim2SF b) as [s|[|]| |[|] m e]; simpl; try discriminate; eauto.
Qed.

Lemma deposit_not_negative b a m e :
  (0 <=? b)%float = true -> Prim2SF a = S754_finite false m e ->
  (0 <=? b + a)%float = true.
Proof.
  intros Hb Ha. rewrite leb_zero_notNegative, add_spec, Ha.
  destruct (leb_zero_cases b Hb) as [[s ->]|[->|(mb & eb & ->)]]; try reflexivity.
  unfold SF64add, SFadd. apply binary_normalize_notNegative.
  unfold cond_Zopp. apply Z.add_nonneg_nonneg; apply Pos2Z.is_nonneg.
Qed.

Lemma withdraw_not_negative b a m e :
  (0 <=? b)%float = true -> Prim2SF a = S754_finite false m e ->
  (b <? a)%float = false ->
  (0 <=? b + - a)%float = true.
Proof.
  intros Hb Ha Hlt.
  pose proof (Prim2SF_valid b) as Vb. pose proof (Prim2SF_valid a) as Va.
  rewrite ltb_spec in Hlt. rewrite Ha in *.
  rewrite leb_zero_notNegative, add_spec, opp_spec, Ha.
  destruct (leb_zero_cases b Hb) as [[s E]|[E|(mb & eb & E)]]; rewrite E in *.
  - discriminate.
  - reflexivity.
  - unfold SF64add, SFadd. simpl SFopp. cbv iota. apply binary_normalize_notNegative.
    pose proof (aligned_mantissas_ordered mb eb m e Vb Va Hlt) as H.
    unfold cond_Zopp. cbv zeta.
    change (Z.opp (Z.pos ?p)) with (Z.neg p). lia.
Qed.

(** At a balance that is not above zero every positive amount exceeds
    the balance. *)
Lemma positive_exceeds_not_positive b a m e :
  (b <=? 0)%float = true -> Prim2SF a = S754_finite false m e ->
  (b <? a)%float = true.
Proof.
  rewrite leb_spec, ltb_spec, Prim2SF_zero. intros Hb ->.
  destruct (Prim2SF b) as [s|[|]| |[|] mb eb]; simpl in *; try discriminate; reflexivity.
Qed.

Lemma positive_above_zero a m e :
  Prim2SF a = S754_finite false m e -> (0 <? a)%float = true.
Proof. rewrite ltb_spec, Prim2SF_zero. now intros ->. Qed.

(** ** Transaction types *)

(** X1: [isTransactionType] accepts the strings "Deposit" and
    "Withdraw" and nothing else: no other string, whatever its case, and
    no value that is not a string. *)
Theorem isTransactionType_exactly_two_strings v :
  isTransactionType v = true <-> v = VStr "Deposit" \/ v = VStr "Withdraw".
Proof.
  split; [apply isTransactionType_inv|]. intros [-> | ->]; reflexivity.
Qed.

(** ** Valid amounts *)

(** X2: the amount of a transaction that [validateTransaction] accepts
    is the coercion of its [amount] field, a finite number strictly
    above zero (so neither NaN nor an infinity, nor a zero of either
    sign). *)
Theorem valid_amount_is_finite_and_positive t amount :
  validateTransaction t = ret (Valid amount) ->
  toNumber (get t "amount") = ret (Some amount)
  /\ isFinite amount = true
  /\ isNaN amount = false
  /\ (0 <? amount)%float = true
  /\ (amount =? 0)%float = false.
Proof.
  intros V. destruct (valid_amount_finite _ _ V) as (m & e & Hsf).
  apply validateTransaction_Valid in V. destruct V as (_ & Hn & Hpos).
  destruct (toNumber_finite _ _ Hn) as [Hfin _].
  repeat apply conj; auto.
  - now apply isFinite_not_NaN.
  - now apply positive_above_zero with m e.
  - rewrite eqb_spec, Hsf, Prim2SF_zero. reflexivity.
Qed.

Lemma valid_amount_is_finite_and_positive_witness :
  toNumber (get (request "Deposit" (VStr "250.75")) "amount") = ret (Some 250.75%float)
  /\ isFinite 250.75 = true
  /\ isNaN 250.75 = false
  /\ (0 <? 250.75)%float = true
  /\ (250.75 =? 0)%float = false.
Proof.
  apply (valid_amount_is_finite_and_positive (request "Deposit" (VStr "250.75"))).
  vm_compute. reflexivity.
Defined.

(** ** The reasons of a rejection *)

(** X3: a call that rejects leaves the account as it is, records the
    transaction with its position, and gives one of seven reasons, each
    for its own cause: the value is not an object, its type is falsy,
    its type is not a transaction type, its amount is [undefined] or
    [null], its amount is not coerced, its amount is [<= 0], or it is a
    valid Withdraw above the balance. *)
Theorem rejection_has_one_of_seven_reasons a i t a' reason transaction :
  applyTransaction a i t = ret (a', NotApplied reason transaction) ->
  a' = a
  /\ transaction = VObj (set "index" (VNum (ofNat i + 1)%float) (spread t))
  /\ ((reason = "Invalid transaction object"
       /\ (ToBoolean t = false \/ typeof t <> "object"))
      \/ (reason = "Missing transaction type" /\ ToBoolean (get t "type") = false)
      \/ (exists text,
             ToString (get t "type") = ret text
             /\ reason = "Unknown transaction type: " ++ text
             /\ ToBoolean (get t "type") = true
             /\ isTransactionType (get t "type") = false)
      \/ (reason = "Missing transaction amount" /\ isNullish (get t "amount") = true)
      \/ (exists raw,
             ToString (get t "amount") = ret raw
             /\ reason = "Invalid amount: " ++ raw
             /\ amountIsCoerced t = true /\ toNumber (get t "amount") = ret None)
      \/ (exists amount,
             reason = "Amount must be positive: " ++ Number_toString amount
             /\ amountIsCoerced t = true
             /\ toNumber (get t "amount") = ret (Some amount)
             /\ (amount <=? 0)%float = true)
      \/ (exists amount,
             reason = insufficient amount (balance a)
             /\ validateTransaction t = ret (Valid amount)
             /\ hasType "Withdraw" t = true
             /\ (balance a <? amount)%float = true)).
Proof.
  intros H.
  destruct (validateTransaction t) as [message|[error|amount]] eqn:V.
  - apply (proj2 (applyTransaction_throws a i t message)) in V. rewrite V in H.
    discriminate.
  - rewrite (applyTransaction_invalid _ _ _ _ V) in H. injection H as <- <- <-.
    split; [reflexivity|]. split; [reflexivity|].
    revert V. unfold validateTransaction, bind, ret.
    destruct (ToBoolean t) eqn:E1; simpl; [|intros [= <-]; auto].
    destruct (String.eqb_spec (typeof t) "object") as [E2|E2]; simpl;
      [|intros [= <-]; auto].
    destruct (ToBoolean (get t "type")) eqn:E3; simpl; [|intros [= <-]; auto].
    destruct (isTransactionType (get t "type")) eqn:E4; simpl.
    + destruct (isNullish (get t "amount")) eqn:E5; [intros [= <-]; auto 7|].
      assert (Hc : amountIsCoerced t = true).
      { unfold amountIsCoerced. rewrite E1, E2, E3, E4, E5. reflexivity. }
      destruct (toNumber (get t "amount")) as [thrown|[x|]] eqn:E6; [discriminate| |].
      * destruct (x <=? 0)%float eqn:E7; [|discriminate].
        intros [= <-]. do 5 right. left. exists x. auto.
      * destruct (ToString (get t "amount")) as [thrown|raw] eqn:E7; [discriminate|].
        intros [= <-]. do 4 right. left. exists raw. auto.
    + destruct (ToString (get t "type")) as [thrown|text] eqn:E5; [discriminate|].
      intros [= <-]. right. right. left. exists text. auto.
  - rewrite (applyTransaction_valid _ _ _ _ V) in H.
    destruct (hasType "Withdraw" t) eqn:Hw; simpl in H;
      [destruct (balance a <? amount)%float eqn:Hlt|]; try discriminate.
    injection H as <- <- <-.
    split; [reflexivity|]. split; [reflexivity|].
    do 6 right. exists amount. auto.
Qed.

Lemma rejection_has_one_of_seven_reasons_witness :
  let a := setBalance (opening 2000) 2500 in
  let t := request "Withdraw" (VNum 3000) in
  let reason := "Insufficient balance: required 3000, available 2500" in
  applyTransaction a 1 t
  = ret (a, NotApplied reason
              (VObj [("type", VStr "Withdraw"); ("amount", VNum 3000); ("index", VNum 2)]))
  /\ ((reason = "Invalid transaction object"
       /\ (ToBoolean t = false \/ typeof t <> "object"))
      \/ (reason = "Missing transaction type" /\ ToBoolean (get t "type") = false)
      \/ (exists text,
             ToString (get t "type") = ret text
             /\ reason = "Unknown transaction type: " ++ text
             /\ ToBoolean (get t "type") = true
             /\ isTransactionType (get t "type") = false)
      \/ (reason = "Missing transaction amount" /\ isNullish (get t "amount") = true)
      \/ (exists raw,
             ToString (get t "amount") = ret raw
             /\ reason = "Invalid amount: " ++ raw
             /\ amountIsCoerced t = true /\ toNumber (get t "amount") = ret None)
      \/ (exists amount,
             reason = "Amount must be positive: " ++ Number_toString amount
             /\ amountIsCoerced t = true
             /\ toNumber (get t "amount") = ret (Some amount)
             /\ (amount <=? 0)%float = true)
      \/ (exists amount,
             reason = insufficient amount (balance a)
             /\ validateTransaction t = ret (Valid amount)
             /\ hasType "Withdraw" t = true
             /\ (balance a <? amount)%float = true)).
Proof.
  intros a t reason. split; [reflexivity|].
  exact (proj2 (proj2 (rejection_has_one_of_seven_reasons a 1 t a reason _ eq_refl))).
Defined.

(** ** Values that are not records *)

(** X4: an element that is not an object ([undefined], [null], a
    boolean, a number or a string) is rejected with "Invalid transaction
    object", and an array, which has no [type], with "Missing
    transaction type"; the account is left as it is.  What is recorded
    for [undefined], [null], a boolean or a number is the position
    alone. *)
Theorem elements_that_are_not_records_are_rejected a i t :
  match t with
  | VObj _ => True
  | VArr elements =>
      applyTransaction a i t
      = ret (a, NotApplied "Missing transaction type"
                  (VObj (set "index" (VNum (ofNat i + 1)%float) (spread t))))
  | VStr s =>
      applyTransaction a i t
      = ret (a, NotApplied "Invalid transaction object"
                  (VObj (set "index" (VNum (ofNat i + 1)%float) (spread t))))
  | _ =>
      applyTransaction a i t
      = ret (a, NotApplied "Invalid transaction object"
                  (VObj [("index", VNum (ofNat i + 1)%float)]))
  end.
Proof.
  destruct t as [| |b|x|s|elements|properties]; try reflexivity.
  - unfold applyTransaction, validateTransaction. simpl ToBoolean.
    destruct (negb b); reflexivity.
  - unfold applyTransaction, validateTransaction. simpl ToBoolean.
    destruct (negb (negb (is_nan x || is_zero x))); reflexivity.
  - unfold applyTransaction, validateTransaction. simpl ToBoolean.
    destruct (negb (negb (String.eqb s ""))); reflexivity.
Qed.

(** ** What the entries keep of a request *)

(** X5: the entry recorded for a request object keeps every property of
    the request.  A rejected entry differs from the request in [index]
    alone, so it shows the amount as it was given; an applied entry
    differs in [index] and in [amount], which is the coerced number. *)
Theorem entries_keep_the_request a i properties a' r :
  applyTransaction a i (VObj properties) = ret (a', r) ->
  get (transactionOf r) "index" = VNum (ofNat i + 1)%float
  /\ (forall key, key <> "index" -> key <> "amount" ->
        get (transactionOf r) key = get (VObj properties) key)
  /\ match r with
     | NotApplied _ transaction =>
         get transaction "amount" = get (VObj properties) "amount"
     | Applied transaction =>
         exists amount,
           get transaction "amount" = VNum amount
           /\ toNumber (get (VObj properties) "amount") = ret (Some amount)
     end.
Proof.
  intros H.
  destruct (applyTransaction_cases a i (VObj properties))
    as [(m & E)|[(reason & E)|(amount & V & E)]]; rewrite E in H; try discriminate;
    injection H as <- <-; simpl transactionOf; simpl spread.
  - split; [apply get_set_same|]. split.
    + intros key Hi _. now apply get_set_other.
    + apply get_set_other. discriminate.
  - split; [apply get_set_same|]. split.
    + intros key Hi Ha. now rewrite !get_set_other.
    + exists amount. rewrite get_amount_applied. split; [reflexivity|].
      now apply validateTransaction_Valid in V.
Qed.

Lemma entries_keep_the_request_witness :
  get (VObj [("type", VStr "Deposit"); ("amount", VNum 250.75); ("note", VStr "rent");
             ("index", VNum 1)]) "index" = VNum 1
  /\ get (VObj [("type", VStr "Deposit"); ("amount", VNum 250.75); ("note", VStr "rent");
                ("index", VNum 1)]) "note"
     = get (VObj [("type", VStr "Deposit"); ("amount", VStr "250.75");
                  ("note", VStr "rent")]) "note".
Proof.
  pose proof (entries_keep_the_request (opening 500.5) 0
            [("type", VStr "Deposit"); ("amount", VStr "250.75"); ("note", VStr "rent")]
            {| accountNumber := VStr "ACC100"; accountHolder := VStr "Ada Holder";
               currency := VStr "USD"; initialBalance := 500.5; balance := 751.25 |}
            (Applied (VObj [("type", VStr "Deposit"); ("amount", VNum 250.75);
                            ("note", VStr "rent"); ("index", VNum 1)]))
            eq_refl) as (Hindex & Hkeys & _).
  split; [exact Hindex|]. apply (Hkeys "note"); discriminate.
Defined.

(** ** Withdrawals from an account that holds nothing *)

(** X7: at a balance that is not above zero no Withdraw is applied: a
    call that returns returns a rejection and the same account, and a
    valid Withdraw is rejected for insufficient balance. *)
Theorem no_withdrawal_without_funds a i t :
  (balance a <=? 0)%float = true ->
  hasType "Withdraw" t = true ->
  (forall a' r,
      applyTransaction a i t = ret (a', r) ->
      a' = a
      /\ exists reason,
           r = NotApplied reason (VObj (set "index" (VNum (ofNat i + 1)%float) (spread t))))
  /\ (forall amount,
        validateTransaction t = ret (Valid amount) ->
        applyTransaction a i t
        = ret (a, NotApplied (insufficient amount (balance a))
                    (VObj (set "index" (VNum (ofNat i + 1)%float) (spread t))))).
Proof.
  intros Hb Hw.
  assert (Hvalid : forall amount,
             validateTransaction t = ret (Valid amount) ->
             applyTransaction a i t
             = ret (a, NotApplied (insufficient amount (balance a))
                         (VObj (set "index" (VNum (position i)) (spread t))))).
  { intros amount V. destruct (valid_amount_finite _ _ V) as (m & e & Hsf).
    now rewrite (applyTransaction_valid _ _ _ _ V), Hw,
      (positive_exceeds_not_positive _ _ _ _ Hb Hsf). }
  split; [|exact Hvalid].
  intros a' r H.
  destruct (validateTransaction t) as [message|[error|amount]] eqn:V.
  - apply (proj2 (applyTransaction_throws a i t message)) in V. rewrite V in H.
    discriminate.
  - rewrite (applyTransaction_invalid _ _ _ _ V) in H. injection H as <- <-. eauto.
  - rewrite (Hvalid _ eq_refl) in H. injection H as <- <-. eauto.
Qed.

Lemma no_withdrawal_without_funds_witness :
  applyTransaction (opening (-10)) 0 (request "Withdraw" (VNum 5))
  = ret ({| accountNumber := VStr "ACC100"; accountHolder := VStr "Ada Holder";
            currency := VStr "USD"; initialBalance := -10; balance := -10 |},
         NotApplied "Insufficient balance: required 5, available -10"
           (VObj [("type", VStr "Withdraw"); ("amount", VNum 5); ("index", VNum 1)])).
Proof.
  exact (proj2 (no_withdrawal_without_funds (opening (-10)) 0 (request "Withdraw" (VNum 5))
                  eq_refl eq_refl) 5%float eq_refl).
Defined.

(** ** Applied entries *)

(** X8: an applied entry is itself a valid transaction with the same
    amount: its type is the request's and its amount is the coerced
    number, which coerces to itself. *)
Theorem applied_entry_is_valid_again a i t a' transaction :
  applyTransaction a i t = ret (a', Applied transaction) ->
  exists amount,
    validateTransaction t = ret (Valid amount)
    /\ validateTransaction transaction = ret (Valid amount).
Proof.
  intros H.
  destruct (applyTransaction_cases a i t) as [(m & E)|[(reason & E)|(amount & V & E)]];
    rewrite E in H; try discriminate. injection H as _ <-.
  exists amount. split; [exact V|].
  apply validateTransaction_Valid in V as V'. destruct V' as (Hc & Hn & Hpos).
  destruct (toNumber_finite _ _ Hn) as [Hfin _].
  destruct (amountIsCoerced_inv _ Hc) as ((properties & ->) & Htype & _).
  simpl spread.
  rewrite validateTransaction_coerced.
  - rewrite get_amount_applied, toNumber_spec. simpl. now rewrite Hfin, Hpos.
  - unfold amountIsCoerced. rewrite get_type_applied, get_amount_applied.
    destruct Htype as [-> | ->]; reflexivity.
Qed.

Lemma applied_entry_is_valid_again_witness :
  exists amount,
    validateTransaction (request "Deposit" (VStr "250.75")) = ret (Valid amount)
    /\ validateTransaction
         (VObj [("type", VStr "Deposit"); ("amount", VNum 250.75); ("index", VNum 1)])
       = ret (Valid amount).
Proof.
  exact (applied_entry_is_valid_again (opening 500.5) 0
           (request "Deposit" (VStr "250.75"))
           {| accountNumber := VStr "ACC100"; accountHolder := VStr "Ada Holder";
              currency := VStr "USD"; initialBalance := 500.5; balance := 751.25 |}
           (VObj [("type", VStr "Deposit"); ("amount", VNum 250.75); ("index", VNum 1)])
           eq_refl).
Defined.

(** ** The position does not matter, nor the descriptor *)

Lemma set_set key (v w : value) ps : set key v (set key w ps) = set key v ps.
Proof.
  induction ps as [|[k x] rest IH]; simpl.
  - now rewrite String.eqb_refl.
  - destruct (String.eqb k key) eqn:E; simpl; rewrite E; [reflexivity|].
    now rewrite IH.
Qed.

(** What a call does depends on the account through its balance alone,
    and on the index through the recorded position alone. *)
Lemma applyTransaction_balance a b i j t :
  balance a = balance b ->
  match applyTransaction a i t, applyTransaction b j t with
  | inl m, inl m' => m = m'
  | inr (a', r), inr (b', r') =>
      balance a' = balance b'
      /\ match r, r' with
         | Applied x, Applied y =>
             x = VObj (set "index" (VNum (position i)) (spread y))
         | NotApplied reason x, NotApplied reason' y =>
             reason = reason'
             /\ x = VObj (set "index" (VNum (position i)) (spread y))
             /\ a' = a /\ b' = b
         | _, _ => False
         end
  | _, _ => False
  end.
Proof.
  intros Hb. unfold applyTransaction, bind, ret. rewrite Hb.
  destruct (validateTransaction t) as [message|[error|amount]]; simpl.
  - reflexivity.
  - split; [exact Hb|]. split; [reflexivity|]. simpl. now rewrite set_set.
  - destruct (strictEqualsString (get t "type") "Withdraw"
              && (balance b <? amount)%float); simpl.
    + split; [exact Hb|]. split; [reflexivity|]. now rewrite set_set.
    + split; [reflexivity|]. now rewrite set_set.
Qed.

Lemma applyTransaction_same_index a b i t :
  balance a = balance b ->
  match applyTransaction a i t, applyTransaction b i t with
  | inl m, inl m' => m = m'
  | inr (a', r), inr (b', r') => r = r' /\ balance a' = balance b'
  | _, _ => False
  end.
Proof.
  intros Hb. unfold applyTransaction, bind, ret. rewrite Hb.
  destruct (validateTransaction t) as [message|[error|amount]]; simpl; [auto|auto|].
  destruct (strictEqualsString (get t "type") "Withdraw" && (balance b <? amount)%float);
    simpl; auto.
Qed.

Lemma results_same_balance transactions : forall i a b,
  balance a = balance b ->
  results transactions i a = results transactions i b
  /\ errorOf transactions i a = errorOf transactions i b
  /\ balance (accountAfter transactions i a) = balance (accountAfter transactions i b).
Proof.
  induction transactions as [|t rest IH]; intros i a b Hb; simpl; [auto|].
  pose proof (applyTransaction_same_index a b i t Hb) as H.
  destruct (applyTransaction a i t) as [m|[a' r]], (applyTransaction b i t) as [m'|[b' r']];
    try contradiction.
  - subst. auto.
  - destruct H as [-> Hn]. simpl.
    destruct (IH (S i) _ _ Hn) as (IH1 & IH2 & IH3). rewrite IH1. auto.
Qed.

(** X9: while it runs the transactions the program looks at nothing of
    the account but its balance: two valid inputs with the same
    transactions and the same coerced initial balance give the same
    applied and rejected entries and the same ending balance, whatever
    their account number, holder and currency, and the same log message
    when both reports are printed to the end. *)
Theorem only_the_balance_matters input input' opened opened' transactions :
  initialize input = ret (opened, transactions) ->
  initialize input' = ret (opened', transactions) ->
  initialBalance opened = initialBalance opened' ->
  let s := processBankingTransaction input in
  let s' := processBankingTransaction input' in
  applied s = applied s'
  /\ rejected s = rejected s'
  /\ option_map balance (account s) = option_map balance (account s')
  /\ (uncaught s = None -> uncaught s' = None -> logMessage s = logMessage s').
Proof.
  intros H H' Hb s s'. subst s s'.
  rewrite (process_opened _ _ _ H), (process_opened _ _ _ H').
  apply initialize_inr in H, H'.
  destruct H as (_ & _ & Ho & _), H' as (_ & _ & Ho' & _).
  assert (Hbal : balance opened = balance opened').
  { rewrite Ho in Hb. rewrite Ho' in Hb. exact Hb. }
  destruct (results_same_balance transactions 0 _ _ Hbal) as (-> & -> & Hend).
  destruct (reportAccount opened), (reportAccount opened'); simpl; rewrite Hend;
    repeat apply conj; auto; discriminate.
Qed.

Lemma only_the_balance_matters_witness :
  let other :=
    descriptor (VNum 500.5)
      (VArr [request "Deposit" (VStr "250.75"); request "Withdraw" (VNum 0);
             request "Withdraw" (VNum 750.25)]) in
  applied (processBankingTransaction testCase3) = applied (processBankingTransaction other)
  /\ rejected (processBankingTransaction testCase3)
     = rejected (processBankingTransaction other)
  /\ option_map balance (account (processBankingTransaction other)) = Some 1%float
  /\ logMessage (processBankingTransaction testCase3)
     = logMessage (processBankingTransaction other).
Proof.
  intros other.
  pose proof (only_the_balance_matters testCase3 other _ _ _ eq_refl eq_refl eq_refl)
    as (H1 & H2 & H3 & H4).
  split; [exact H1|]. split; [exact H2|]. split; [|exact (H4 eq_refl eq_refl)].
  rewrite <- H3. reflexivity.
Defined.

(** ** The loop without the rejected transactions *)

Lemma kept_results transactions : forall i j a b,
  balance a = balance b ->
  balance (accountAfter (kept transactions i a) j b)
  = balance (accountAfter transactions i a)
  /\ errorOf (kept transactions i a) j b = None
  /\ rejectedOf (results (kept transactions i a) j b) = []
  /\ map signedAmount (appliedOf (results (kept transactions i a) j b))
     = map signedAmount (appliedOf (results transactions i a)).
Proof.
  induction transactions as [|t rest IH]; intros i j a b Hb; simpl; [auto|].
  destruct (applyTransaction a i t) as [m|[a' [x|reason x]]] eqn:Ea; simpl; [auto| |].
  - pose proof (applyTransaction_balance a b i j t Hb) as Hk. rewrite Ea in Hk.
    destruct (applyTransaction b j t) as [m'|[b' [y|reason' y]]] eqn:Eb;
      try contradiction; [|destruct Hk as [_ []]].
    destruct Hk as [Hn Hx]. simpl.
    destruct (IH (S i) (S j) _ _ Hn) as (IH1 & IH2 & IH3 & IH4).
    rewrite IH1, IH2, IH3, IH4. repeat split. f_equal.
    destruct (applyTransaction_cases b j t) as [(m & E)|[(reason & E)|(amount & V & E)]];
      rewrite E in Eb; try discriminate. injection Eb as _ <-.
    subst x. unfold signedAmount, hasType, amountOf. simpl spread.
    apply validateTransaction_Valid in V. destruct V as (Hc & _ & _).
    apply amountIsCoerced_inv in Hc. destruct Hc as ((properties & ->) & _ & _).
    simpl spread. rewrite !(get_set_other "index") by discriminate. reflexivity.
  - assert (Hsame : balance a' = balance b).
    { destruct (applyTransaction_cases a i t)
        as [(m & E)|[(reason' & E)|(amount & V & E)]];
        rewrite E in Ea; try discriminate. now injection Ea as <- _ _. }
    exact (IH (S i) j _ _ Hsame).
Qed.

Lemma kept_length transactions : forall i a,
  List.length (kept transactions i a)
  = List.length (appliedOf (results transactions i a)).
Proof.
  induction transactions as [|t rest IH]; intros i a; simpl; [reflexivity|].
  destruct (applyTransaction a i t) as [m|[a' [x|reason x]]]; simpl;
    now rewrite ?IH.
Qed.

(** X11: the rejected transactions have no effect on the account: run on
    the applied transactions alone, as they stand in the input, the loop
    throws no error, rejects none, adds the same amounts in the same
    order and ends at the same balance. *)
Theorem rejected_transactions_have_no_effect transactions i j p :
  let q := forEach (kept transactions i (current p)) j p in
  snd q = None
  /\ balance (current (fst q)) = balance (current (fst (forEach transactions i p)))
  /\ rejectedSoFar (fst q) = rejectedSoFar p
  /\ List.length (kept transactions i (current p))
     = List.length (appliedOf (results transactions i (current p)))
  /\ exists entries,
       appliedSoFar (fst q) = (appliedSoFar p ++ entries)%list
       /\ map signedAmount entries
          = map signedAmount (appliedOf (results transactions i (current p))).
Proof.
  intros q. subst q. rewrite !forEach_results. simpl.
  destruct (kept_results transactions i j (current p) (current p) eq_refl)
    as (H1 & H2 & H3 & H4).
  rewrite H1, H2, H3, app_nil_r. repeat split.
  - apply kept_length.
  - eexists. split; [reflexivity|exact H4].
Qed.

(** ** No overdraft *)

Lemma applyTransaction_not_negative a i t a' r :
  (0 <=? balance a)%float = true ->
  applyTransaction a i t = ret (a', r) ->
  (0 <=? balance a')%float = true.
Proof.
  intros Hb H.
  destruct (validateTransaction t) as [message|[error|amount]] eqn:V.
  - apply (proj2 (applyTransaction_throws a i t message)) in V. rewrite V in H.
    discriminate.
  - rewrite (applyTransaction_invalid _ _ _ _ V) in H. now injection H as <- _.
  - rewrite (applyTransaction_valid _ _ _ _ V) in H.
    destruct (valid_amount_finite _ _ V) as (m & e & Hsf).
    destruct (valid_type _ _ V) as [[Hd Hw]|[Hd Hw]]; rewrite Hd, Hw in H; simpl in H.
    + injection H as <- _. now apply deposit_not_negative with m e.
    + destruct (balance a <? amount)%float eqn:Hlt; injection H as <- _; [exact Hb|].
      now apply withdraw_not_negative with m e.
Qed.

Lemma accountAfter_not_negative transactions : forall i a,
  (0 <=? balance a)%float = true ->
  (0 <=? balance (accountAfter transactions i a))%float = true.
Proof.
  induction transactions as [|t rest IH]; intros i a Hb; simpl; [exact Hb|].
  destruct (applyTransaction a i t) as [m|[a' r]] eqn:E; [exact Hb|].
  apply IH. exact (applyTransaction_not_negative _ _ _ _ _ Hb E).
Qed.

Lemma not_negative_not_NaN b : (0 <=? b)%float = true -> isNaN b = false.
Proof.
  intros H. unfold isNaN, is_nan. rewrite eqb_spec.
  destruct (leb_zero_cases b H) as [[s ->]|[->|(m & e & ->)]]; try reflexivity.
  unfold SFeqb. now rewrite SFcompare_finite_refl.
Qed.

(** X12: no overdraft.  When the coerced initial balance is not below
    zero, the balance is not below zero after any number of the
    transactions, and so at the end of the run; it is never NaN. *)
Theorem balance_never_negative input opened transactions :
  initialize input = ret (opened, transactions) ->
  (0 <=? initialBalance opened)%float = true ->
  (forall earlier later,
      transactions = (earlier ++ later)%list ->
      let p := fst (forEach earlier 0
                      {| current := opened; appliedSoFar := []; rejectedSoFar := [] |}) in
      (0 <=? balance (current p))%float = true
      /\ isNaN (balance (current p)) = false)
  /\ exists final,
       account (processBankingTransaction input) = Some final
       /\ (0 <=? balance final)%float = true
       /\ isNaN (balance final) = false.
Proof.
  intros H Hb.
  assert (Hopen : (0 <=? balance opened)%float = true).
  { apply initialize_inr in H as H'. destruct H' as (_ & _ & Ho & _).
    rewrite Ho in Hb. rewrite Ho. exact Hb. }
  split.
  - intros earlier later _ p. subst p. rewrite forEach_results. simpl.
    pose proof (accountAfter_not_negative earlier 0 opened Hopen) as Hn.
    split; [exact Hn|]. now apply not_negative_not_NaN.
  - destruct (process_opened_lists _ _ _ H) as (-> & _ & _).
    eexists. split; [reflexivity|].
    pose proof (accountAfter_not_negative transactions 0 opened Hopen) as Hn.
    split; [exact Hn|]. now apply not_negative_not_NaN.
Qed.

Lemma balance_never_negative_witness :
  exists final,
    account (processBankingTransaction testCase2) = Some final
    /\ (0 <=? balance final)%float = true
    /\ isNaN (balance final) = false.
Proof.
  exact (proj2 (balance_never_negative testCase2 _ _ eq_refl eq_refl)).
Defined.

(** ** No transactions *)

(** X13: with an empty transaction list a valid input opens the account
    and changes nothing: the balance is the coerced initial balance and
    [applied] and [rejected] are empty; when the holder, the number and
    the currency have a text, the report is printed to the end and the
    log message counts 0 and 0. *)
Theorem empty_transaction_list input :
  firstFailure (fieldChecks input) = None ->
  get input "transactions" = VArr [] ->
  forall b,
    toNumber (get input "initialBalance") = ret (Some b) ->
    let s := processBankingTransaction input in
    account s = Some {| accountNumber := get input "accountNumber";
                        accountHolder := get input "accountHolder";
                        currency := get input "currency";
                        initialBalance := b;
                        balance := b |}
    /\ applied s = []
    /\ rejected s = []
    /\ (forall holder number code,
          ToString (get input "accountHolder") = ret holder ->
          ToString (get input "accountNumber") = ret number ->
          ToString (get input "currency") = ret code ->
          logMessage s = "Completed: 0 applied, 0 rejected."
          /\ uncaught s = None).
Proof.
  intros Hf Ht b Hb s. subst s.
  assert (H : initialize input
              = ret ({| accountNumber := get input "accountNumber";
                        accountHolder := get input "accountHolder";
                        currency := get input "currency";
                        initialBalance := b;
                        balance := b |}, [])).
  { revert Hf. unfold initialize, fieldChecks, bind, throwIf, throw, ret. simpl.
    destruct (negb (ToBoolean input) || negb (String.eqb (typeof input) "object"));
      [discriminate|].
    destruct (negb (ToBoolean (get input "accountNumber"))); [discriminate|].
    destruct (negb (ToBoolean (get input "accountHolder"))); [discriminate|].
    destruct (isNullish (get input "initialBalance")); [discriminate|].
    destruct (negb (ToBoolean (get input "currency"))); [discriminate|].
    intros _. rewrite Ht, Hb. reflexivity. }
  rewrite (process_opened _ _ _ H). unfold reportAccount, bind, ret. simpl.
  destruct (ToString (get input "accountHolder")) as [m1|holder'].
  { repeat apply conj; auto. intros holder number code Hh. discriminate. }
  destruct (ToString (get input "accountNumber")) as [m2|number'].
  { repeat apply conj; auto. intros holder number code _ Hh. discriminate. }
  destruct (ToString (get input "currency")) as [m3|code'].
  { repeat apply conj; auto. intros holder number code _ _ Hh. discriminate. }
  repeat apply conj; auto.
Qed.

Lemma empty_transaction_list_witness :
  let s := processBankingTransaction (descriptor (VStr "500.50") (VArr [])) in
  account s = Some {| accountNumber := VStr "ACC100"; accountHolder := VStr "Ada Holder";
                      currency := VStr "USD"; initialBalance := 500.5; balance := 500.5 |}
  /\ applied s = []
  /\ rejected s = []
  /\ logMessage s = "Completed: 0 applied, 0 rejected."
  /\ uncaught s = None.
Proof.
  intros s.
  pose proof (empty_transaction_list (descriptor (VStr "500.50") (VArr []))
                eq_refl eq_refl 500.5%float eq_refl) as (H1 & H2 & H3 & H4).
  destruct (H4 "Ada Holder" "ACC100" "USD" eq_refl eq_refl eq_refl) as [H5 H6].
  repeat apply conj; assumption.
Defined.

(** ** One outcome for each transaction, when no call throws *)

Lemma results_length_lt transactions : forall i a message,
  errorOf transactions i a = Some message ->
  (List.length (results transactions i a) < List.length transactions)%nat.
Proof.
  induction transactions as [|t rest IH]; intros i a message; simpl; [discriminate|].
  destruct (applyTransaction a i t) as [m|step]; simpl; [lia|].
  intros H. apply IH in H. lia.
Qed.

(** The result recorded for the [k]-th element is that of the call made
    on it at index [k], from the account that the elements before it
    leave. *)
Lemma results_at transactions : forall i a k t,
  errorOf transactions i a = None ->
  nth_error transactions k = Some t ->
  exists r after,
    nth_error (results transactions i a) k = Some r
    /\ applyTransaction (accountAfter (firstn k transactions) i a) (i + k) t
       = ret (after, r).
Proof.
  induction transactions as [|x rest IH]; intros i a k t Herr Hk.
  - destruct k; discriminate.
  - simpl in Herr. destruct (applyTransaction a i x) as [m|[a' r0]] eqn:E; [discriminate|].
    destruct k as [|k]; simpl in Hk.
    + injection Hk as <-. exists r0, a'. simpl. rewrite E, Nat.add_0_r. auto.
    + destruct (IH (S i) a' k t Herr Hk) as (r & after & Hr & Hcall).
      exists r, after. simpl. rewrite E. simpl. split; [exact Hr|].
      now replace (i + S k)%nat with (S i + k)%nat by lia.
Qed.

Lemma systemError_caught rs error message :
  In (SystemError message) (caught (rejectedOf rs) error) <-> error = Some message.
Proof.
  assert (Hnone : ~ In (SystemError message) (rejectedOf rs)).
  { intros Hin. apply rejectedOf_transactions in Hin.
    destruct Hin as (reason & transaction & E & _). discriminate. }
  destruct error as [m|]; simpl; split.
  - intros Hin. apply in_app_or in Hin. destruct Hin as [Hin|[E|[]]]; [contradiction|].
    now injection E as ->.
  - intros [= ->]. apply in_or_app. right. now left.
  - contradiction.
  - discriminate.
Qed.

(** X14: in a structurally valid run no call of the loop throws exactly
    when [rejected] holds no system error.  Then each element of the
    transaction list has exactly one result, in order: that of the call
    made on it at its index, from the account that the elements before
    it leave.  The applied results make up [applied] and the others make
    up [rejected], so the two lengths add up to the length of the list;
    every entry of [rejected] is a rejected transaction with one reason,
    and every result carries the 1-based position of its element as
    [index].  When a call throws, the system error is the last entry of
    [rejected] and the two lengths add up to the length of the list at
    most. *)
Theorem one_outcome_when_no_call_throws input opened transactions :
  initialize input = ret (opened, transactions) ->
  let s := processBankingTransaction input in
  (errorOf transactions 0 opened = None
   <-> forall message, ~ In (SystemError message) (rejected s))
  /\ (errorOf transactions 0 opened = None ->
      (List.length (applied s) + List.length (rejected s)
       = List.length transactions)%nat
      /\ (forall entry,
            In entry (rejected s) ->
            exists reason transaction, entry = RejectedTransaction reason transaction)
      /\ exists rs : list result,
           List.length rs = List.length transactions
           /\ applied s = appliedOf rs
           /\ rejected s = rejectedOf rs
           /\ forall k t,
                nth_error transactions k = Some t ->
                exists r after,
                  nth_error rs k = Some r
                  /\ applyTransaction (accountAfter (firstn k transactions) 0 opened) k t
                     = ret (after, r)
                  /\ get (transactionOf r) "index" = VNum (ofNat k + 1)%float)
  /\ (forall message,
        errorOf transactions 0 opened = Some message ->
        (List.length (applied s) + List.length (rejected s)
         <= List.length transactions)%nat
        /\ exists outcomes, rejected s = (outcomes ++ [SystemError message])%list).
Proof.
  intros H s. subst s.
  destruct (process_opened_lists _ _ _ H) as (_ & -> & ->).
  split; [|split].
  - split.
    + intros Hnone message Hin. apply systemError_caught in Hin. congruence.
    + intros Hno. destruct (errorOf transactions 0 opened) as [message|]; [|reflexivity].
      destruct (Hno message). now apply systemError_caught.
  - intros Hnone. rewrite Hnone. simpl caught.
    split; [rewrite outcomes_length; now apply results_length|]. split.
    + intros entry Hin. apply rejectedOf_transactions in Hin.
      destruct Hin as (reason & transaction & -> & _). eauto.
    + exists (results transactions 0 opened).
      split; [now apply results_length|]. split; [reflexivity|]. split; [reflexivity|].
      intros k t Hk. destruct (results_at _ 0 opened k t Hnone Hk) as (r & after & Hr & Hcall).
      exists r, after. simpl in Hcall. split; [exact Hr|]. split; [exact Hcall|].
      exact (position_recorded _ _ _ _ _ Hcall).
  - intros message Herr. rewrite Herr. simpl caught. split.
    + rewrite length_app. simpl.
      pose proof (outcomes_length (results transactions 0 opened)).
      pose proof (results_length_lt _ _ _ _ Herr). lia.
    + eauto.
Qed.

Lemma one_outcome_when_no_call_throws_witness :
  let s := processBankingTransaction testCase2 in
  (List.length (applied s) + List.length (rejected s) = 7)%nat
  /\ exists rs : list result,
       List.length rs = 7%nat
       /\ applied s = appliedOf rs
       /\ rejected s = rejectedOf rs
       /\ exists r after,
            nth_error rs 6 = Some r
            /\ applyTransaction
                 {| accountNumber := VStr "ACC002"; accountHolder := VStr "Jane Smith";
                    currency := VStr "EUR"; initialBalance := 2000; balance := 2500 |}
                 6 (request "Deposit" (VStr "invalid"))
               = ret (after, r)
            /\ get (transactionOf r) "index" = VNum 7.
Proof.
  intros s.
  destruct (proj1 (proj2 (one_outcome_when_no_call_throws testCase2 _ _ eq_refl)) eq_refl)
    as (Hsum & _ & rs & Hlen & Ha & Hr & Hk).
  split; [exact Hsum|]. exists rs. split; [exact Hlen|]. split; [exact Ha|].
  split; [exact Hr|]. exact (Hk 6%nat (request "Deposit" (VStr "invalid")) eq_refl).
Defined.

(** ** The log message *)

(** X15: a structurally valid run ends without an error exactly when the
    holder, the number and the currency of the account have a text,
    which the report prints.  Then the log message counts the entries of
    [applied] and of [rejected], a system error caught in the loop
    included. *)
Theorem log_message_counts_the_entries input opened transactions :
  initialize input = ret (opened, transactions) ->
  let s := processBankingTransaction input in
  (uncaught s = None
   <-> exists holder number code,
         ToString (get input "accountHolder") = ret holder
         /\ ToString (get input "accountNumber") = ret number
         /\ ToString (get input "currency") = ret code)
  /\ (uncaught s = None ->
      logMessage s
      = "Completed: " ++ Number_toString (ofNat (List.length (applied s))) ++ " applied, "
        ++ Number_toString (ofNat (List.length (rejected s))) ++ " rejected.").
Proof.
  intros H s. subst s. rewrite (process_opened _ _ _ H).
  apply initialize_inr in H. destruct H as (_ & _ & Ho & _).
  unfold reportAccount, bind, ret. rewrite Ho. simpl.
  destruct (ToString (get input "accountHolder")) as [m1|holder].
  { split; [split|]; try discriminate. intros (h & n & c & Hh & _). discriminate. }
  destruct (ToString (get input "accountNumber")) as [m2|number].
  { split; [split|]; try discriminate. intros (h & n & c & _ & Hn & _). discriminate. }
  destruct (ToString (get input "currency")) as [m3|code].
  { split; [split|]; try discriminate. intros (h & n & c & _ & _ & Hc). discriminate. }
  split; [split|]; [intros _; exists holder, number, code|reflexivity|reflexivity];
    auto.
Qed.

Lemma log_message_counts_the_entries_witness :
  logMessage (processBankingTransaction testCase2) = "Completed: 1 applied, 6 rejected."
  /\ logMessage (processBankingTransaction throwingCase)
     = "Completed: 1 applied, 1 rejected.".
Proof.
  split.
  - rewrite (proj2 (log_message_counts_the_entries testCase2 _ _ eq_refl) eq_refl).
    vm_compute. reflexivity.
  - rewrite (proj2 (log_message_counts_the_entries throwingCase _ _ eq_refl) eq_refl).
    vm_compute. reflexivity.
Defined.

